(** * Statsmodels_utils: resample, forecast index, polling loop, ingestion

    A shallow embedding of [Statsmodels_utils.py] (the Bitcoin ARIMA tutorial
    helpers) and the properties of its pipeline.

    Conventions used throughout:
    - a pandas [Timestamp] / [DatetimeIndex] entry is an integer number of
      nanoseconds since the Unix epoch (UTC); the int64 range limit of pandas
      timestamps (year 2262) is not modelled;
    - a price cell is [option Q]: [None] is NaN (a missing value), [Some q] a
      number.  Prices are exact rationals, so the mean is the exact mean;
      binary floating-point rounding is outside the model and values are
      compared with [Qeq];
    - a DataFrame with a datetime index and the single column [price] is the
      list of its rows in order (an index may be unsorted and may repeat). *)

From Stdlib Require Import ZArith QArith Qround List Sorted Permutation Bool Lia Ascii String.
From stdpp Require Import base option list gmap strings.
Import ListNotations.

Local Open Scope Z_scope.

(** ** Time units (pandas offsets "1min", "1H", "1D") in nanoseconds *)

Module Freq.
Definition millisecond : Z := 1000000.
Definition second : Z := 1000 * millisecond.
Definition minute : Z := 60 * second.
Definition hour : Z := 60 * minute.
Definition day : Z := 24 * hour.
End Freq.

(** ** Frames *)

Abbreviation cell := (option Q) (only parsing).
Abbreviation row := (Z * option Q)%type (only parsing).
Abbreviation frame := (list (Z * option Q)) (only parsing).

Definition index (df : frame) : list Z := List.map fst df.
Definition prices (df : frame) : list cell := List.map snd df.

(** [df.index[-1]]: raises IndexError on an empty frame ([None]). *)
Definition last_timestamp (df : frame) : option Z := last (index df).

Definition cell_eq (a b : cell) : Prop :=
  match a, b with
  | Some x, Some y => (x == y)%Q
  | None, None => True
  | _, _ => False
  end.

Definition row_eq (a b : row) : Prop := fst a = fst b /\ cell_eq (snd a) (snd b).

(** Two frames hold the same timestamps and the same values, row by row. *)
Definition frame_eq (a b : frame) : Prop := Forall2 row_eq a b.

(** ** Resampler: [df.resample(freq).mean()], [.dropna()], [.ffill()] *)

(** Label of the bin that holds [t]: the bin edges are the multiples of
    [freq] (for "1min", "1H" and "1D" pandas anchors the edges at midnight
    of the first day, which is a multiple of each of them). *)
Definition bucket_of (freq t : Z) : Z := freq * (t / freq).

Definition in_bucket (freq b : Z) (r : row) : bool := bucket_of freq (fst r) =? b.

Definition present (xs : list cell) : list Q := omap id xs.

Definition Qsum (xs : list Q) : Q := fold_right Qplus 0%Q xs.

(** Mean of a bin: NaN cells are skipped; a bin with no number is NaN.  The
    sum is exact; the program adds binary64 values, in the order of the
    timestamps. *)
Definition nanmean (xs : list cell) : cell :=
  match present xs with
  | [] => None
  | q :: qs => Some (Qsum (q :: qs) / inject_Z (Z.of_nat (length (q :: qs))))%Q
  end.

Definition bin_mean (freq b : Z) (df : frame) : cell :=
  nanmean (prices (List.filter (in_bucket freq b) df)).

Definition first_bin (freq : Z) (t : Z) (ts : list Z) : Z :=
  bucket_of freq (fold_right Z.min t ts).

Definition last_bin (freq : Z) (t : Z) (ts : list Z) : Z :=
  bucket_of freq (fold_right Z.max t ts).

(** One output row per bin from the bin of the earliest timestamp to the bin
    of the latest one, empty bins included (as NaN); an empty frame gives an
    empty frame.  The input need not be sorted. *)
Definition resample_mean (freq : Z) (df : frame) : frame :=
  match index df with
  | [] => []
  | t :: ts =>
      let lo := first_bin freq t ts in
      let hi := last_bin freq t ts in
      List.map (fun k => let b := lo + Z.of_nat k * freq in (b, bin_mean freq b df))
               (seq 0 (Z.to_nat ((hi - lo) / freq + 1)))
  end.

Definition notna (r : row) : bool :=
  match snd r with Some _ => true | None => false end.

Definition dropna (df : frame) : frame := List.filter notna df.

Fixpoint ffill_from (prev : cell) (df : frame) : frame :=
  match df with
  | [] => []
  | (t, v) :: rest =>
      let v' := match v with Some _ => v | None => prev end in
      (t, v') :: ffill_from v' rest
  end.

Definition ffill (df : frame) : frame := ffill_from None df.

(** ** Python values, exceptions and effects *)

(** A decoded JSON document ([response.json()]). *)
#[warnings="-register-all"]
Inductive json : Type :=
  | JNull
  | JBool (b : bool)
  | JNum (q : Q)
  | JStr (s : string)
  | JArr (xs : list json)
  | JObj (m : gmap string json).

Inductive exn : Type :=
  | KeyError (k : string)
  | TypeError
  | IndexError
  | ValueError
  | JSONDecodeError
  | RequestException
  | LinAlgError.

Definition is_substring (k s : string) : bool :=
  match String.index 0 k s with Some _ => true | None => false end.

(** [k in data]: key membership for a dict, element membership for a list,
    substring test for a str, TypeError for None, bool and numbers. *)
Definition py_contains (k : string) (data : json) : exn + bool :=
  match data with
  | JObj m => inr (bool_decide (is_Some (m !! k)))
  | JArr xs =>
      inr (existsb (fun x => match x with JStr s => String.eqb s k | _ => false end) xs)
  | JStr s => inr (is_substring k s)
  | JNull | JBool _ | JNum _ => inl TypeError
  end.

(** [data[k]] with a str key: the value for a dict, KeyError when the key is
    absent, TypeError for every other kind of value. *)
Definition py_getitem (data : json) (k : string) : exn + json :=
  match data with
  | JObj m => match m !! k with Some v => inr v | None => inl (KeyError k) end
  | _ => inl TypeError
  end.

(** What [requests.get] hands back: the raw body and the outcome of
    decoding it ([response.json()] raises on a body that is not JSON). *)
Record response : Type := { text : string; json_body : exn + json }.

Inductive message : Type :=
  | MsgUnexpectedFormat
  | MsgRaw (body : string)
  | MsgSimulating (minutes : Z)
  | MsgAppended (now : Z) (price : cell)
  | MsgForecastSaved
  | MsgUnexpectedResponse (days : Z)
  | MsgSaved (title filename : string).

Inductive log_entry : Type :=
  | LogInfo (m : message)
  | LogError (m : message).

(** The part of the outside world the functions write to: the module-level
    logger and the CSV files. *)
Record world : Type := { logs : list log_entry; files : list (string * frame) }.

(** Computations that update a state and either return or raise.  A raised
    exception keeps the state reached so far. *)
Definition M (S A : Type) : Type := S -> S * (exn + A).

Definition ret {S A} (a : A) : M S A := fun s => (s, inr a).
Definition raise {S A} (e : exn) : M S A := fun s => (s, inl e).
Definition bind {S A B} (c : M S A) (k : A -> M S B) : M S B :=
  fun s => match c s with
           | (s', inr a) => k a s'
           | (s', inl e) => (s', inl e)
           end.
Definition lift {S A} (r : exn + A) : M S A := fun s => (s, r).

Declare Scope py_scope.
Delimit Scope py_scope with py.
Notation "x <- c ;; k" := (bind c (fun x => k))
  (at level 100, c at next level, right associativity) : py_scope.
Notation "c ;;; k" := (bind c (fun _ => k))
  (at level 100, right associativity) : py_scope.

(** [try: body except KeyError: handler]; the handler may re-raise the
    exception it caught.  Every other exception passes through. *)
Definition except_KeyError {S A} (body : M S A) (handler : exn -> M S A) : M S A :=
  fun s => match body s with
           | (s', inl (KeyError k)) => handler (KeyError k) s'
           | out => out
           end.

Definition logger_info (m : message) : M world unit :=
  fun w => ({| logs := logs w ++ [LogInfo m]; files := files w |}, inr tt).
Definition logger_error (m : message) : M world unit :=
  fun w => ({| logs := logs w ++ [LogError m]; files := files w |}, inr tt).
Definition to_csv (filename : string) (df : frame) : M world unit :=
  fun w => ({| logs := logs w; files := files w ++ [(filename, df)] |}, inr tt).

(** ** Library interfaces *)

(** [pd.DataFrame(prices, columns=["timestamp", "price"])] followed by
    [pd.to_datetime(..., unit="ms", utc=True)] and [set_index]: the frame
    decoded from the payload, or the exception pandas raises on a payload of
    another shape. *)
Class Pandas : Type := { read_prices : json -> exn + frame }.

(** [statsmodels.tsa.arima.model.ARIMA]: fitting a model of a given order on
    a series, and forecasting from the fitted model.  The only law relied
    on is that a forecast of [steps] steps holds [steps] values. *)
Class Arima : Type := {
  results : Type;
  arima_fit : frame -> nat * nat * nat -> exn + results;
  arima_forecast : results -> nat -> exn + list Q;
  forecast_steps : forall r steps fc, arima_forecast r steps = inr fc -> length fc = steps
}.

(** ** The functions of [Statsmodels_utils.py] *)

Local Open Scope py_scope.

(** *** [fetch_historical_data] *)

Definition fetch_historical_data {pandas : Pandas} (http : exn + response) : M world frame :=
  response <- lift http ;;
  prices <- except_KeyError
              (data <- lift (json_body response) ;;
               lift (py_getitem data "prices"))
              (fun e =>
                 logger_error MsgUnexpectedFormat ;;;
                 logger_error (MsgRaw (text response)) ;;;
                 raise e) ;;
  df <- lift (read_prices prices) ;;
  ret (dropna (resample_mean Freq.minute df)).

(** *** [simulate_realtime] *)

(** One turn of the polling loop as the environment decides it: [spot] is the
    outcome of the request and of [response.json()['bitcoin']['usd']] (a
    price, or the exception raised on the way), [now] is the reading of
    [pd.Timestamp.utcnow()] that follows it. *)
Record tick : Type := { spot : exn + cell; now : Z }.

(** [df.loc[t] = v]: every row labelled [t] is overwritten when the label is
    in the index; otherwise a row is added at the end. *)
Definition loc_set (t : Z) (v : cell) (df : frame) : frame :=
  if existsb (Z.eqb t) (index df)
  then List.map (fun r => if (fst r =? t)%Z then (fst r, v) else r) df
  else df ++ [(t, v)].

(** The state of the loop: the caller's DataFrame object, which the loop
    mutates in place, and the world. *)
Definition in_world {A} (c : M world A) : M (frame * world) A :=
  fun s => match c (snd s) with (w, r) => ((fst s, w), r) end.
Definition set_loc (t : Z) (v : cell) : M (frame * world) unit :=
  fun s => ((loc_set t v (fst s), snd s), inr tt).
Definition get_df : M (frame * world) frame := fun s => (s, inr (fst s)).

Fixpoint for_each {S A} (xs : list A) (body : A -> M S unit) : M S unit :=
  match xs with
  | [] => ret tt
  | x :: rest => body x ;;; for_each rest body
  end.

Definition poll (tk : tick) : M (frame * world) unit :=
  price <- lift (spot tk) ;;
  set_loc (now tk) price ;;;
  in_world (logger_info (MsgAppended (now tk) price)).

(** [feed i] is what the environment does at iteration [i]; the sleep
    between two iterations only shows in the clock readings. *)
Definition simulate_realtime (feed : nat -> tick) (minutes : Z) : M (frame * world) frame :=
  in_world (logger_info (MsgSimulating minutes)) ;;;
  for_each (seq 0 (Z.to_nat minutes)) (fun i => poll (feed i)) ;;;
  get_df.

(** *** [run_arima_analysis] *)

Definition run_arima_analysis {arima : Arima} (df : frame) : exn + (results * list Q) :=
  let df := ffill (resample_mean Freq.minute df) in
  match arima_fit df (2, 1, 2)%nat with
  | inl e => inl e
  | inr res =>
      match arima_forecast res 30 with
      | inl e => inl e
      | inr forecast => inr (res, forecast)
      end
  end.

(** *** [plot_forecast] and [save_to_csv] *)

(** [pd.date_range(start=..., periods=..., freq=...)] for a fixed-width
    frequency. *)
Definition date_range (start : Z) (periods : nat) (freq : Z) : list Z :=
  List.map (fun i => start + Z.of_nat i * freq) (seq 0 periods).

(** [pd.date_range(start=df.index[-1] + pd.Timedelta(minutes=1), periods=30,
    freq="1min")]. *)
Definition forecast_index (df : frame) : exn + list Z :=
  match last_timestamp df with
  | None => inl IndexError
  | Some t => inr (date_range (t + 1 * Freq.minute) 30 Freq.minute)
  end.

(** Two columns side by side; columns of different lengths raise
    ValueError. *)
Definition zip_columns (ts : list Z) (vals : list Q) : exn + frame :=
  if Nat.eqb (length ts) (length vals)
  then inr (combine ts (List.map Some vals))
  else inl ValueError.

(** The two lines drawn: the last 120 actual rows and the forecast. *)
Definition plot_forecast (df : frame) (forecast : list Q) : exn + frame * frame :=
  match forecast_index df with
  | inl e => inl e
  | inr idx =>
      match zip_columns idx forecast with
      | inl e => inl e
      | inr line => inr (skipn (length df - 120) df, line)
      end
  end.

Definition save_to_csv (df : frame) (forecast : list Q) : M world unit :=
  to_csv "btc_full_data.csv" df ;;;
  forecast_index <- lift (forecast_index df) ;;
  forecast_df <- lift (zip_columns forecast_index forecast) ;;
  to_csv "btc_price_forecast.csv" forecast_df ;;;
  logger_info MsgForecastSaved.

(** *** [fetch_and_process_data] *)

(** The [if days == 1 / elif days == 30 / else] choice of the resampling
    rule: "1min", "1H" or "1D". *)
Definition resample_rule (days : Z) : Z :=
  if (days =? 1)%Z then Freq.minute
  else if (days =? 30)%Z then Freq.hour
  else Freq.day.

(** The statements that draw the figure, after the file is written and the
    line logged, are not part of the embedding: the function is followed up
    to its last effect on the log and the files, and to the value it
    returns. *)
Definition fetch_and_process_data {pandas : Pandas}
    (days : Z) (filename title : string) (http : exn + response) : M world (option frame) :=
  response <- lift http ;;
  data <- lift (json_body response) ;;
  has_prices <- lift (py_contains "prices" data) ;;
  if negb has_prices then
    logger_error (MsgUnexpectedResponse days) ;;;
    logger_error (MsgRaw (text response)) ;;;
    ret None
  else
    prices <- lift (py_getitem data "prices") ;;
    df <- lift (read_prices prices) ;;
    let df := dropna (resample_mean (resample_rule days) df) in
    to_csv filename df ;;;
    logger_info (MsgSaved title filename) ;;;
    ret (Some df).

(** ** Reference implementations of the library interfaces

    They are used to run the functions on concrete inputs. *)

(** A payload that is a list of [[milliseconds, price]] pairs (a price may be
    null); any other payload is refused with ValueError. *)
Definition read_pair (j : json) : option row :=
  match j with
  | JArr [JNum ms; JNum p] => Some (Qfloor ms * Freq.millisecond, Some p)
  | JArr [JNum ms; JNull] => Some (Qfloor ms * Freq.millisecond, None)
  | _ => None
  end.

Definition read_table (j : json) : exn + frame :=
  match j with
  | JArr xs =>
      match mapM read_pair xs with
      | Some df => inr df
      | None => inl ValueError
      end
  | _ => inl ValueError
  end.

#[local] Instance table_pandas : Pandas := {| read_prices := read_table |}.

(** A forecaster that repeats the last observed price. *)
Definition last_price (df : frame) : Q :=
  match last (present (prices df)) with Some q => q | None => 0%Q end.

Definition persistence_fit (min_obs : nat) (df : frame) (order : nat * nat * nat)
    : exn + Q :=
  if (length df <? min_obs)%nat then inl ValueError else inr (last_price df).

Definition persistence_steps (r : Q) (steps : nat) (fc : list Q)
    (E : inr (A := exn) (repeat r steps) = inr fc) : length fc = steps :=
  match E in (_ = y)
        return (match y with inr l => length l = steps | inl _ => True end) with
  | eq_refl => repeat_length r steps
  end.

(** The forecaster sets no minimum length: it accepts every series. *)
#[local] Instance persistence_arima : Arima := {|
  results := Q;
  arima_fit := persistence_fit 0;
  arima_forecast := fun r steps => inr (repeat r steps);
  forecast_steps := persistence_steps
|}.


(** ** Auxiliary definitions and sample data *)

Definition scenario (t0 : Z) : frame :=
  [(t0, Some 100%Q); (t0 + 10 * Freq.second, Some 102%Q); (t0 + 70 * Freq.second, Some 98%Q)].

(** A series is regular at [f] from [t]: one number per consecutive bin,
    the first one labelled [t]. *)
Fixpoint regular_at (f t : Z) (df : frame) : Prop :=
  match df with
  | [] => True
  | (t', v) :: rest => t' = t /\ v <> None /\ regular_at f (t + f) rest
  end.

(** Regular at [f], every timestamp on a bin edge. *)
Definition regular (f : Z) (df : frame) : Prop :=
  match df with
  | [] => True
  | (t0, _) :: _ => t0 mod f = 0 /\ regular_at f t0 df
  end.

Definition three_minutes : frame :=
  [(0, Some 100%Q); (Freq.minute, Some 102%Q); (2 * Freq.minute, Some 98%Q)].

Definition same_minute : frame :=
  [(5 * Freq.second, Some 100%Q); (15 * Freq.second, None); (40 * Freq.second, Some 102%Q)].

(** Two observations ten seconds apart, on both sides of a minute edge. *)
Definition across_the_edge : frame :=
  [(55 * Freq.second, Some 100%Q); (65 * Freq.second, Some 102%Q)].

Definition price_of (tk : tick) : cell :=
  match spot tk with inr p => p | inl _ => None end.

(** The rows that iterations [s], ..., [s + n - 1] append when all goes
    well. *)
Definition rows (feed : nat -> tick) (s n : nat) : frame :=
  List.map (fun i => (now (feed i), price_of (feed i))) (seq s n).

Definition readings (feed : nat -> tick) (s n : nat) : list Z :=
  List.map (fun i => now (feed i)) (seq s n).

Definition succeeds (tk : tick) : Prop := exists p, spot tk = inr p.

Definition no_world : world := {| logs := []; files := [] |}.

(** A spot price of 50000 every minute, from second 200 on. *)
Definition steady_feed (i : nat) : tick :=
  {| spot := inr (Some 50000%Q); now := (200 + 60 * Z.of_nat i) * Freq.second |}.

(** The clock stands still at second 100. *)
Definition frozen_feed (i : nat) : tick :=
  {| spot := inr (Some 7%Q); now := 100 * Freq.second |}.

Definition one_row : frame := [(100 * Freq.second, Some 5%Q)].

Definition two_rows : frame := [(100 * Freq.second, Some 5%Q); (160 * Freq.second, Some 6%Q)].

Definition log_errors (ms : list message) (w : world) : world :=
  {| logs := logs w ++ List.map LogError ms; files := files w |}.

(** Sample responses. *)
Definition dq : string := String "034"%char EmptyString.

Definition empty_object : response :=
  {| text := "{}"; json_body := inr (JObj ∅) |}.

Definition rate_limited : response :=
  {| text := String.append "{" (String.append dq (String.append "error" (String.append dq
               (String.append ":" (String.append dq (String.append "rate limited"
               (String.append dq "}")))))));
     json_body := inr (JObj {[ "error"%string := JStr "rate limited" ]}) |}.

Definition price_table : json :=
  JArr [JArr [JNum 0; JNum 100]; JArr [JNum 10000; JNum 102]; JArr [JNum 70000; JNum 98]].

Definition market_chart : response :=
  {| text := String.append "{" (String.append dq (String.append "prices" (String.append dq
               ":[[0,100],[10000,102],[70000,98]]}")));
     json_body := inr (JObj {[ "prices"%string := price_table ]}) |}.

(** Two observations ten minutes apart. *)
Definition sparse : frame := [(0, Some 100%Q); (10 * Freq.minute, Some 110%Q)].

(** The timestamps of [df] are [t], [t + f], [t + 2 f], ...: a grid, whatever
    the cells hold. *)
Fixpoint grid_at (f t : Z) (df : frame) : Prop :=
  match df with
  | [] => True
  | (t', _) :: rest => t' = t /\ grid_at f (t + f) rest
  end.

(** Every cell of the frame is a number. *)
Definition numeric (df : frame) : Prop := Forall (fun r => snd r <> None) df.

(** The last number among the first [n] cells, if there is one. *)
Definition last_number (n : nat) (xs : list cell) : cell := last (present (firstn n xs)).

(** Three observations out of order, one of them NaN, over four minutes. *)
Definition scattered : frame :=
  [(200 * Freq.second, Some 30%Q); (5 * Freq.second, Some 10%Q);
   (70 * Freq.second, None); (20 * Freq.second, Some 20%Q)].

(** The spot request fails at the third iteration. *)
Definition failing_feed (i : nat) : tick :=
  {| spot := if (i =? 2)%nat then inl RequestException else inr (Some 50000%Q);
     now := (200 + 60 * Z.of_nat i) * Freq.second |}.

(** A body that is a JSON string, not an object. *)
Definition plain_message : response :=
  {| text := String.append dq (String.append "no prices today" dq);
     json_body := inr (JStr "no prices today") |}.

(** The frame after the first [n] iterations have assigned their readings,
    in order. *)
Definition assigned (feed : nat -> tick) (n : nat) (df : frame) : frame :=
  fold_left (fun d i => loc_set (now (feed i)) (price_of (feed i)) d) (seq 0 n) df.

(** The log lines of a call of [simulate_realtime] whose first [n]
    iterations go through. *)
Definition polling_log (feed : nat -> tick) (minutes : Z) (n : nat) : list log_entry :=
  LogInfo (MsgSimulating minutes)
  :: List.map (fun i => LogInfo (MsgAppended (now (feed i)) (price_of (feed i)))) (seq 0 n).

Definition add_logs (es : list log_entry) (w : world) : world :=
  {| logs := logs w ++ es; files := files w |}.

(** The body of the [try] of [fetch_historical_data]: decode the response,
    then read the key "prices". *)
Definition decode_and_read (resp : response) : exn + json :=
  match json_body resp with
  | inl e => inl e
  | inr data => py_getitem data "prices"
  end.

(** ** Facts about bins *)

Section Bins.
Variable f : Z.
Hypothesis f_pos : 0 < f.

Lemma bucket_of_bounds (t : Z) : bucket_of f t <= t < bucket_of f t + f.
Proof.
  unfold bucket_of.
  pose proof (Z.mul_div_le t f f_pos).
  pose proof (Z.mul_succ_div_gt t f f_pos). lia.
Qed.

Lemma bucket_of_unique (t k : Z) : f * k <= t < f * k + f -> bucket_of f t = f * k.
Proof.
  intros Hk. unfold bucket_of. f_equal.
  symmetry. apply (Z.div_unique_pos t f k (t - f * k)); lia.
Qed.

Lemma bucket_of_multiple (k : Z) : bucket_of f (f * k) = f * k.
Proof. apply bucket_of_unique. lia. Qed.

Lemma bucket_of_on_edge (t : Z) : t mod f = 0 -> bucket_of f t = t.
Proof.
  intros Hm. unfold bucket_of.
  pose proof (Z.div_mod t f ltac:(lia)). lia.
Qed.

Lemma bucket_of_shift (t : Z) (k : Z) : bucket_of f (t + k * f) = bucket_of f t + k * f.
Proof. unfold bucket_of. rewrite Z.div_add by lia. lia. Qed.

Lemma bucket_span (a b : Z) :
  (bucket_of f b - bucket_of f a) / f = b / f - a / f.
Proof.
  unfold bucket_of.
  replace (f * (b / f) - f * (a / f)) with ((b / f - a / f) * f) by lia.
  apply Z.div_mul. lia.
Qed.
End Bins.

(** The earliest and latest timestamps of a non-empty index. *)
Lemma fold_min_in (t : Z) (ts : list Z) : In (fold_right Z.min t ts) (t :: ts).
Proof.
  induction ts as [|x ts IH]; simpl; [now left|].
  destruct (Z.min_spec x (fold_right Z.min t ts)) as [[_ E]|[_ E]]; rewrite E.
  - right; now left.
  - destruct IH as [IH|IH]; [now left | right; now right].
Qed.

Lemma fold_max_in (t : Z) (ts : list Z) : In (fold_right Z.max t ts) (t :: ts).
Proof.
  induction ts as [|x ts IH]; simpl; [now left|].
  destruct (Z.max_spec x (fold_right Z.max t ts)) as [[_ E]|[_ E]]; rewrite E.
  - destruct IH as [IH|IH]; [now left | right; now right].
  - right; now left.
Qed.

Lemma fold_min_le (t : Z) (ts : list Z) (x : Z) :
  In x (t :: ts) -> fold_right Z.min t ts <= x.
Proof.
  induction ts as [|y ts IH]; simpl.
  - intros [->|[]]. lia.
  - intros [->|[->|Hin]].
    + specialize (IH (or_introl eq_refl)). lia.
    + lia.
    + specialize (IH (or_intror Hin)). lia.
Qed.

Lemma fold_max_ge (t : Z) (ts : list Z) (x : Z) :
  In x (t :: ts) -> x <= fold_right Z.max t ts.
Proof.
  induction ts as [|y ts IH]; simpl.
  - intros [->|[]]. lia.
  - intros [->|[->|Hin]].
    + specialize (IH (or_introl eq_refl)). lia.
    + lia.
    + specialize (IH (or_intror Hin)). lia.
Qed.

Lemma filter_all {A} (p : A -> bool) (l : list A) :
  Forall (fun x => p x = true) l -> List.filter p l = l.
Proof.
  induction 1 as [|x l Hx _ IH]; simpl; [reflexivity|].
  now rewrite Hx, IH.
Qed.

Lemma resample_mean_nil (f : Z) : resample_mean f [] = [].
Proof. reflexivity. Qed.

(** A non-empty frame whose rows all lie in bin [b] resamples to the single
    row labelled [b] that holds the mean of every price. *)
Lemma resample_mean_one_bin (f b : Z) (df : frame) :
  0 < f -> df <> [] ->
  Forall (fun r => bucket_of f (fst r) = b) df ->
  resample_mean f df = [(b, nanmean (prices df))].
Proof.
  intros Hf Hne Hall.
  destruct df as [|[t v] rest]; [congruence|].
  assert (Hidx : forall x, In x (t :: index rest) -> bucket_of f x = b).
  { intros x Hx. change (t :: index rest) with (index ((t, v) :: rest)) in Hx.
    unfold index in Hx. apply in_map_iff in Hx as [r [<- Hr]].
    rewrite Forall_forall in Hall. apply Hall. now apply list_elem_of_In. }
  unfold resample_mean. cbn [index List.map fst].
  fold (index rest).
  unfold first_bin, last_bin.
  rewrite (Hidx _ (fold_min_in t (index rest))).
  rewrite (Hidx _ (fold_max_in t (index rest))).
  rewrite Z.sub_diag, Z.div_0_l by lia.
  change (Z.to_nat (0 + 1)) with 1%nat. cbn [seq List.map].
  change (Z.of_nat 0) with 0. rewrite Z.mul_0_l, Z.add_0_r. unfold bin_mean.
  rewrite filter_all; [reflexivity|].
  eapply Forall_impl; [exact Hall|].
  intros r Hr. unfold in_bucket. now apply Z.eqb_eq.
Qed.

Lemma minute_seconds : Freq.minute = 60 * Freq.second /\ 0 < Freq.second.
Proof. split; reflexivity. Qed.

Example resample_scenario_aligned :
  dropna (resample_mean Freq.minute
            [(0, Some 100%Q); (10 * Freq.second, Some 102%Q); (70 * Freq.second, Some 98%Q)])
  = [(0, Some ((100 + (102 + 0)) / inject_Z 2)%Q); (Freq.minute, Some ((98 + 0) / inject_Z 1)%Q)].
Proof. vm_compute. reflexivity. Qed.

(** C2 (resampling scenario), amended: when [t0] lies in the first fifty
    seconds of its minute, the three observations [(t0, 100)],
    [(t0 + 10s, 102)], [(t0 + 70s, 98)], resampled by the minute with the
    mean and stripped of empty bins, give the two rows
    [(floor t0, 101)] and [(floor t0 + 60s, 98)]. *)
Theorem resample_scenario (t0 : Z) :
  t0 mod Freq.minute < 50 * Freq.second ->
  frame_eq (dropna (resample_mean Freq.minute (scenario t0)))
           [(bucket_of Freq.minute t0, Some 101%Q);
            (bucket_of Freq.minute t0 + 60 * Freq.second, Some 98%Q)].
Proof.
  intros Hoff.
  destruct minute_seconds as [Hmin Hsec].
  assert (Hpos : 0 < Freq.minute) by lia.
  pose proof (Z.div_mod t0 Freq.minute ltac:(lia)) as Hdm.
  pose proof (Z.mod_pos_bound t0 Freq.minute Hpos) as Hmod.
  set (q := t0 / Freq.minute) in *.
  assert (B0 : bucket_of Freq.minute t0 = Freq.minute * q) by reflexivity.
  assert (B1 : bucket_of Freq.minute (t0 + 10 * Freq.second) = Freq.minute * q).
  { apply bucket_of_unique; lia. }
  assert (B2 : bucket_of Freq.minute (t0 + 70 * Freq.second) = Freq.minute * (q + 1)).
  { apply bucket_of_unique; lia. }
  unfold scenario, resample_mean. cbn [index List.map fst].
  unfold first_bin, last_bin. cbn [fold_right].
  replace (Z.min (t0 + 10 * Freq.second) (Z.min (t0 + 70 * Freq.second) t0)) with t0 by lia.
  replace (Z.max (t0 + 10 * Freq.second) (Z.max (t0 + 70 * Freq.second) t0))
    with (t0 + 70 * Freq.second) by lia.
  rewrite B0, B2.
  replace ((Freq.minute * (q + 1) - Freq.minute * q) / Freq.minute + 1) with 2.
  2:{ replace (Freq.minute * (q + 1) - Freq.minute * q) with (1 * Freq.minute) by lia.
      rewrite Z.div_mul by lia. reflexivity. }
  change (Z.to_nat 2) with 2%nat. cbn [seq List.map].
  change (Z.of_nat 0) with 0. change (Z.of_nat 1) with 1.
  unfold bin_mean, in_bucket. cbn [List.filter fst].
  rewrite B0, B1, B2.
  replace (Freq.minute * q =? Freq.minute * q + 0 * Freq.minute) with true
    by (symmetry; apply Z.eqb_eq; lia).
  replace (Freq.minute * (q + 1) =? Freq.minute * q + 0 * Freq.minute) with false
    by (symmetry; apply Z.eqb_neq; lia).
  replace (Freq.minute * q =? Freq.minute * q + 1 * Freq.minute) with false
    by (symmetry; apply Z.eqb_neq; lia).
  replace (Freq.minute * (q + 1) =? Freq.minute * q + 1 * Freq.minute) with true
    by (symmetry; apply Z.eqb_eq; lia).
  cbn [prices List.map snd nanmean present omap id dropna List.filter notna].
  repeat constructor; cbn [fst snd]; try lia; reflexivity.
Qed.

Lemma Forall2_map_seq {A B} (R : A -> B -> Prop) (g : nat -> A) (l : list B) (s : nat) :
  (forall k r, nth_error l k = Some r -> R (g (s + k)%nat) r) ->
  Forall2 R (List.map g (seq s (length l))) l.
Proof.
  revert s. induction l as [|x l IH]; intros s Hnth; simpl; constructor.
  - specialize (Hnth 0%nat x eq_refl). now rewrite Nat.add_0_r in Hnth.
  - apply IH. intros k r Hk. specialize (Hnth (S k) r Hk).
    now rewrite Nat.add_succ_r in Hnth.
Qed.

Lemma nanmean_single (v : Q) : cell_eq (nanmean [Some v]) (Some v).
Proof. cbn. field. Qed.

Section Regular.
Variable f : Z.
Hypothesis f_pos : 0 < f.

Lemma regular_at_nth (df : frame) : forall (t : Z) (k : nat) (r : row),
  regular_at f t df -> nth_error df k = Some r ->
  fst r = t + Z.of_nat k * f /\ snd r <> None.
Proof.
  induction df as [|[t' v] rest IH]; intros t k r Hreg Hk.
  - destruct k; discriminate.
  - destruct Hreg as (-> & Hv & Hrest). destruct k as [|k]; simpl in Hk.
    + inversion Hk; subst. simpl. split; [lia | assumption].
    + destruct (IH _ _ _ Hrest Hk) as [E Hn]. split; [lia | assumption].
Qed.

Lemma filter_before (df : frame) : forall (t b : Z),
  regular_at f t df -> t mod f = 0 -> b < t ->
  List.filter (in_bucket f b) df = [].
Proof.
  induction df as [|[t' v] rest IH]; intros t b Hreg Hedge Hlt; [reflexivity|].
  destruct Hreg as (-> & Hv & Hrest). cbn [List.filter].
  unfold in_bucket at 1. cbn [fst]. rewrite (bucket_of_on_edge f f_pos t Hedge).
  destruct (Z.eqb_spec t b) as [->|_]; [lia|].
  apply (IH (t + f)); [assumption | | lia].
  rewrite <- (Z.mul_1_l f) at 1. rewrite Z.mod_add by lia. assumption.
Qed.

(** A bin of a regular series holds exactly the row it labels. *)
Lemma filter_regular (df : frame) : forall (t : Z) (k : nat),
  regular_at f t df -> t mod f = 0 ->
  List.filter (in_bucket f (t + Z.of_nat k * f)) df
  = match nth_error df k with Some r => [r] | None => [] end.
Proof.
  induction df as [|[t' v] rest IH]; intros t k Hreg Hedge.
  - destruct k; reflexivity.
  - destruct Hreg as (-> & Hv & Hrest).
    assert (Hedge' : (t + f) mod f = 0).
    { rewrite <- (Z.mul_1_l f) at 1. rewrite Z.mod_add by lia. assumption. }
    cbn [List.filter]. unfold in_bucket at 1. cbn [fst].
    rewrite (bucket_of_on_edge f f_pos t Hedge).
    destruct k as [|k]; cbn [nth_error].
    + replace (t + Z.of_nat 0 * f) with t by lia. rewrite Z.eqb_refl.
      f_equal. apply (filter_before rest (t + f)); [assumption..|lia].
    + destruct (Z.eqb_spec t (t + Z.of_nat (S k) * f)) as [E|_]; [nia|].
      replace (t + Z.of_nat (S k) * f) with (t + f + Z.of_nat k * f) by lia.
      now apply IH.
Qed.

Lemma regular_bins (t0 : Z) (v0 : cell) (rest : frame) :
  t0 mod f = 0 -> regular_at f t0 ((t0, v0) :: rest) ->
  first_bin f t0 (index rest) = t0 /\
  last_bin f t0 (index rest) = t0 + Z.of_nat (length rest) * f.
Proof.
  intros Hedge Hreg. set (df := (t0, v0) :: rest) in *.
  assert (Hin : forall x, In x (t0 :: index rest) ->
                          t0 <= x <= t0 + Z.of_nat (length rest) * f).
  { intros x Hx. change (t0 :: index rest) with (List.map fst df) in Hx.
    apply in_map_iff in Hx as [r [<- Hr]].
    apply In_nth_error in Hr as [k Hk].
    destruct (regular_at_nth df t0 k r Hreg Hk) as [-> _].
    assert (k < length df)%nat by (apply nth_error_Some; congruence).
    assert (0 <= Z.of_nat k <= Z.of_nat (length rest)) by (subst df; simpl in *; lia).
    nia. }
  assert (Hlast : In (t0 + Z.of_nat (length rest) * f) (t0 :: index rest)).
  { change (t0 :: index rest) with (List.map fst df).
    destruct (nth_error df (length rest)) as [r|] eqn:Hk.
    - destruct (regular_at_nth df t0 _ r Hreg Hk) as [<- _].
      apply in_map. eapply nth_error_In; eassumption.
    - apply nth_error_None in Hk. subst df; simpl in Hk; lia. }
  unfold first_bin, last_bin. split.
  - pose proof (Hin _ (fold_min_in t0 (index rest))).
    pose proof (fold_min_le t0 (index rest) t0 (or_introl eq_refl)).
    replace (fold_right Z.min t0 (index rest)) with t0 by lia.
    now apply bucket_of_on_edge.
  - pose proof (Hin _ (fold_max_in t0 (index rest))).
    pose proof (fold_max_ge t0 (index rest) _ Hlast).
    replace (fold_right Z.max t0 (index rest))
      with (t0 + Z.of_nat (length rest) * f) by lia.
    rewrite bucket_of_shift by assumption.
    now rewrite bucket_of_on_edge.
Qed.

(** [df.resample(f).mean()] gives back a regular series. *)
Lemma resample_mean_regular (df : frame) :
  regular f df -> frame_eq (resample_mean f df) df.
Proof.
  destruct df as [|[t0 v0] rest]; [constructor|].
  intros [Hedge Hreg]. set (df := (t0, v0) :: rest) in *.
  destruct (regular_bins t0 v0 rest Hedge Hreg) as [Hlo Hhi].
  unfold resample_mean. cbn [index List.map fst df]. fold (index rest).
  rewrite Hlo, Hhi.
  replace (t0 + Z.of_nat (length rest) * f - t0) with (Z.of_nat (length rest) * f) by lia.
  rewrite Z.div_mul by lia.
  replace (Z.to_nat (Z.of_nat (length rest) + 1)) with (length df)
    by (subst df; simpl; lia).
  apply Forall2_map_seq. intros k r Hk. cbn [Nat.add].
  destruct (regular_at_nth df t0 k r Hreg Hk) as [Et Hv].
  unfold bin_mean. rewrite (filter_regular df t0 k Hreg Hedge), Hk.
  destruct r as [t [v|]]; cbn [fst snd] in *; [|congruence].
  split; cbn [fst snd prices List.map]; [lia | apply nanmean_single].
Qed.
End Regular.

Lemma regular_at_present (f : Z) (df : frame) : forall t,
  regular_at f t df -> Forall (fun r => snd r <> None) df.
Proof.
  induction df as [|[t' v] rest IH]; intros t Hreg; constructor.
  - now destruct Hreg as (_ & Hv & _).
  - destruct Hreg as (_ & _ & Hrest). eapply IH; eassumption.
Qed.

Lemma frame_eq_notna (a b : frame) :
  frame_eq a b -> Forall (fun r => snd r <> None) b -> Forall (fun r => notna r = true) a.
Proof.
  induction 1 as [|[ta va] [tb vb] a b [_ Hv] _ IH]; intros Hb; constructor.
  - inversion Hb; subst. cbn in *. destruct va, vb; cbn in *; congruence || tauto.
  - inversion Hb; subst. now apply IH.
Qed.

Lemma ffill_from_present (a : frame) : forall prev,
  Forall (fun r => notna r = true) a -> ffill_from prev a = a.
Proof.
  induction a as [|[t v] a IH]; intros prev Ha; [reflexivity|].
  inversion Ha as [|? ? Hv Hrest]; subst. destruct v as [q|]; [|discriminate].
  cbn. now rewrite IH.
Qed.

(** C7 (resampling idempotence under matching frequency): a series that is
    regular at frequency [f] -- one number per consecutive [f]-bin, every
    timestamp on a bin edge -- comes back from [resample(f).mean()] with the
    same timestamps and the same values; dropping or forward-filling the gaps
    afterwards, as [fetch_historical_data] and [run_arima_analysis] do,
    changes nothing either. *)
Theorem resample_regular_unchanged (f : Z) (df : frame) :
  0 < f -> regular f df ->
  frame_eq (resample_mean f df) df /\
  frame_eq (dropna (resample_mean f df)) df /\
  frame_eq (ffill (resample_mean f df)) df.
Proof.
  intros Hf Hreg.
  pose proof (resample_mean_regular f Hf df Hreg) as Heq.
  assert (Hpresent : Forall (fun r => notna r = true) (resample_mean f df)).
  { apply (frame_eq_notna _ df Heq).
    destruct df as [|[t0 v0] rest]; [constructor|].
    destruct Hreg as [_ Hreg]. eapply regular_at_present; eassumption. }
  split; [assumption|]. split.
  - unfold dropna. now rewrite filter_all.
  - unfold ffill. now rewrite ffill_from_present.
Qed.

Lemma resample_regular_unchanged_witness :
  0 < Freq.minute /\ regular Freq.minute three_minutes /\
  frame_eq (dropna (resample_mean Freq.minute three_minutes)) three_minutes.
Proof.
  assert (Hf : 0 < Freq.minute) by reflexivity.
  assert (Hreg : regular Freq.minute three_minutes).
  { vm_compute. repeat split; discriminate. }
  split; [exact Hf|]. split; [exact Hreg|].
  exact (proj1 (proj2 (resample_regular_unchanged Freq.minute three_minutes Hf Hreg))).
Defined.

(** C8 (edge cases of the resampler): an empty series resamples to an empty
    series, without an error, and stays empty through [dropna] and [ffill];
    a non-empty series whose observations all lie in one bin [b] resamples
    to the single row [b] holding the mean of all of them, which [dropna]
    keeps as soon as one observation is a number. *)
Theorem resample_edge_cases (f b : Z) (df : frame) :
  0 < f -> df <> [] ->
  Forall (fun r => bucket_of f (fst r) = b) df ->
  (resample_mean f [] = [] /\ dropna (resample_mean f []) = [] /\
   ffill (resample_mean f []) = []) /\
  resample_mean f df = [(b, nanmean (prices df))] /\
  (present (prices df) <> [] -> length (dropna (resample_mean f df)) = 1%nat).
Proof.
  intros Hf Hne Hall. split; [repeat split|].
  rewrite (resample_mean_one_bin f b df Hf Hne Hall). split; [reflexivity|].
  intros Hp. unfold dropna, nanmean. cbn [List.filter notna snd].
  destruct (present (prices df)); [congruence | reflexivity].
Qed.

Lemma resample_edge_cases_witness :
  length (dropna (resample_mean Freq.minute same_minute)) = 1%nat.
Proof.
  refine (proj2 (proj2 (resample_edge_cases Freq.minute 0 same_minute _ _ _)) _).
  - reflexivity.
  - discriminate.
  - repeat constructor.
  - discriminate.
Defined.

(** C8, as stated: the observations of [across_the_edge] lie within one
    bucket width of each other, yet the resampled series has two points. *)
Lemma resample_short_span_two_points :
  65 * Freq.second - 55 * Freq.second < Freq.minute /\
  resample_mean Freq.minute across_the_edge
  = [(0, nanmean [Some 100%Q]); (Freq.minute, nanmean [Some 102%Q])] /\
  length (dropna (resample_mean Freq.minute across_the_edge)) = 2%nat.
Proof. repeat split. Qed.

(** C2, as stated: with [t0] 55 seconds into its minute the second
    observation falls into the next bin and the third one into the bin after
    it, so three rows come out, not two. *)
Lemma resample_scenario_late_start :
  dropna (resample_mean Freq.minute (scenario (55 * Freq.second)))
  = [(0, nanmean [Some 100%Q]);
     (Freq.minute, nanmean [Some 102%Q]);
     (2 * Freq.minute, nanmean [Some 98%Q])] /\
  ~ frame_eq (dropna (resample_mean Freq.minute (scenario (55 * Freq.second))))
             [(bucket_of Freq.minute (55 * Freq.second), Some 101%Q);
              (bucket_of Freq.minute (55 * Freq.second) + 60 * Freq.second, Some 98%Q)].
Proof.
  split; [reflexivity|].
  intros Heq. apply Forall2_length in Heq. vm_compute in Heq. discriminate.
Qed.

Lemma resample_scenario_witness :
  frame_eq (dropna (resample_mean Freq.minute (scenario (7 * Freq.second))))
           [(bucket_of Freq.minute (7 * Freq.second), Some 101%Q);
            (bucket_of Freq.minute (7 * Freq.second) + 60 * Freq.second, Some 98%Q)].
Proof. apply (resample_scenario (7 * Freq.second)). reflexivity. Defined.

(** ** The polling loop *)

Lemma poll_ok (tk : tick) (p : cell) (df : frame) (w : world) :
  spot tk = inr p ->
  exists w', poll tk (df, w) = ((loc_set (now tk) p df, w'), inr tt).
Proof.
  intros Hp. unfold poll, bind, lift, set_loc, in_world, logger_info.
  rewrite Hp. cbn. eexists. reflexivity.
Qed.

Lemma poll_raises (tk : tick) (e : exn) (df : frame) (w : world) :
  spot tk = inl e -> poll tk (df, w) = ((df, w), inl e).
Proof. intros He. unfold poll, bind, lift. now rewrite He. Qed.

Lemma loc_set_fresh (t : Z) (v : cell) (df : frame) :
  ~ In t (index df) -> loc_set t v df = df ++ [(t, v)].
Proof.
  intros Hnot. unfold loc_set.
  destruct (existsb (Z.eqb t) (index df)) eqn:E; [|reflexivity].
  apply existsb_exists in E as [x [Hin Hx]]. apply Z.eqb_eq in Hx. now subst.
Qed.

(** Writing at a label that the first rows do not carry leaves them as they
    are, whatever follows them. *)
Lemma loc_set_keeps_prefix (t : Z) (v : cell) (df extra : frame) :
  ~ In t (index df) -> exists extra', loc_set t v (df ++ extra) = df ++ extra'.
Proof.
  intros Hnot. unfold loc_set.
  destruct (existsb (Z.eqb t) (index (df ++ extra))).
  - rewrite List.map_app. eexists. f_equal.
    rewrite <- (List.map_id df) at 2. apply List.map_ext_in.
    intros r Hr. destruct (Z.eqb_spec (fst r) t) as [E|_]; [|reflexivity].
    exfalso. apply Hnot. rewrite <- E. unfold index. now apply in_map.
  - rewrite <- List.app_assoc. eexists. reflexivity.
Qed.

Lemma sorted_before (l r : list Z) (x : Z) :
  StronglySorted Z.lt (l ++ x :: r) -> forall y, In y l -> y < x.
Proof.
  induction l as [|a l IH]; intros Hs y Hy; [destruct Hy|].
  simpl in Hs. apply StronglySorted_inv in Hs as [Hs Ha].
  destruct Hy as [->|Hy]; [|now apply IH].
  rewrite List.Forall_forall in Ha. apply Ha. apply in_or_app. right. now left.
Qed.

Lemma sorted_fresh (l r : list Z) (x : Z) :
  StronglySorted Z.lt (l ++ x :: r) -> ~ In x l.
Proof. intros Hs Hin. pose proof (sorted_before l r x Hs x Hin). lia. Qed.

Lemma index_app (a b : frame) : index (a ++ b) = index a ++ index b.
Proof. apply List.map_app. Qed.

(** The loop from iteration [s] on, when every reading is later than all the
    timestamps before it. *)
Lemma for_each_poll_appends (feed : nat -> tick) : forall (n s : nat) (df : frame) (w : world),
  (forall i, (s <= i < s + n)%nat -> succeeds (feed i)) ->
  StronglySorted Z.lt (index df ++ readings feed s n) ->
  exists w', for_each (seq s n) (fun i => poll (feed i)) (df, w)
             = ((df ++ rows feed s n, w'), inr tt).
Proof.
  induction n as [|n IH]; intros s df w Hok Hs.
  - exists w. cbn. now rewrite List.app_nil_r.
  - destruct (Hok s ltac:(lia)) as [p Hp].
    destruct (poll_ok (feed s) p df w Hp) as [w1 Hpoll].
    cbn [seq for_each]. unfold bind at 1. rewrite Hpoll.
    cbn [readings seq List.map] in Hs. fold (readings feed (S s) n) in Hs.
    rewrite (loc_set_fresh _ _ _ (sorted_fresh _ _ _ Hs)).
    destruct (IH (S s) (df ++ [(now (feed s), p)]) w1) as [w' Hrest].
    + intros i Hi. apply Hok. lia.
    + rewrite index_app. cbn [index List.map fst]. now rewrite <- List.app_assoc.
    + exists w'. rewrite Hrest.
      change (rows feed s (S n))
        with ((now (feed s), price_of (feed s)) :: rows feed (S s) n).
      unfold price_of at 1. rewrite Hp. now rewrite <- List.app_assoc.
Qed.

(** The loop from iteration [s] on, whatever happens: the rows that were
    there at the start and whose labels no successful reading repeats are
    still the first rows, also when an iteration raises. *)
Lemma for_each_poll_keeps_prefix (feed : nat -> tick) (df : frame) :
  forall (n s : nat) (extra : frame) (w : world),
  (forall i, (s <= i < s + n)%nat -> succeeds (feed i) -> ~ In (now (feed i)) (index df)) ->
  exists extra' w' r, for_each (seq s n) (fun i => poll (feed i)) (df ++ extra, w)
                      = ((df ++ extra', w'), r).
Proof.
  induction n as [|n IH]; intros s extra w Hnew.
  - exists extra, w, (inr tt). reflexivity.
  - cbn [seq for_each]. unfold bind at 1.
    destruct (spot (feed s)) as [e|p] eqn:Hp.
    + rewrite (poll_raises _ e _ _ Hp). now exists extra, w, (inl e).
    + destruct (poll_ok (feed s) p (df ++ extra) w Hp) as [w1 Hpoll]. rewrite Hpoll.
      destruct (loc_set_keeps_prefix (now (feed s)) p df extra) as [extra1 Hset].
      { apply Hnew; [lia | now exists p]. }
      rewrite Hset. apply IH. intros i Hi. apply Hnew. lia.
Qed.

Lemma index_rows (feed : nat -> tick) (s n : nat) : index (rows feed s n) = readings feed s n.
Proof. unfold index, rows, readings. rewrite List.map_map. reflexivity. Qed.

Lemma readings_split (feed : nat -> tick) (k n : nat) :
  (k < n)%nat ->
  readings feed 0 n
  = readings feed 0 k ++ now (feed k) :: readings feed (S k) (n - S k).
Proof.
  intros Hk. unfold readings.
  replace n with (k + S (n - S k))%nat at 1 by lia.
  rewrite seq_app, List.map_app. reflexivity.
Qed.

Lemma simulate_realtime_unfold (feed : nat -> tick) (minutes : Z) (df : frame) (w : world) :
  exists w0,
    simulate_realtime feed minutes (df, w)
    = match for_each (seq 0 (Z.to_nat minutes)) (fun i => poll (feed i)) (df, w0) with
      | (s', inr _) => (s', inr (fst s'))
      | (s', inl e) => (s', inl e)
      end.
Proof. eexists. reflexivity. Qed.

Lemma sorted_app_l (l r : list Z) :
  StronglySorted Z.lt (l ++ r) -> StronglySorted Z.lt l.
Proof.
  induction l as [|a l IH]; intros Hs; [constructor|].
  cbn in Hs. apply StronglySorted_inv in Hs as [Hs Ha]. constructor; [now apply IH|].
  rewrite List.Forall_forall in *. intros x Hx. apply Ha. apply in_or_app. now left.
Qed.

(** A run of [n] successful iterations under an ascending clock. *)
Lemma simulate_realtime_run (feed : nat -> tick) (n : nat) (df : frame) (w : world) :
  (forall i, (i < n)%nat -> succeeds (feed i)) ->
  StronglySorted Z.lt (index df ++ readings feed 0 n) ->
  exists w', simulate_realtime feed (Z.of_nat n) (df, w)
             = ((df ++ rows feed 0 n, w'), inr (df ++ rows feed 0 n)).
Proof.
  intros Hok Hs.
  destruct (simulate_realtime_unfold feed (Z.of_nat n) df w) as [w0 ->].
  rewrite Nat2Z.id.
  destruct (for_each_poll_appends feed n 0 df w0) as [w' ->]; [|assumption|].
  - intros i Hi. apply Hok. lia.
  - exists w'. reflexivity.
Qed.

(** C3 (simulator monotonicity), amended: when the timestamps of the initial
    series ascend strictly and the clock readings of the [N] successful
    iterations ascend strictly from after the last of them, the loop returns
    the initial series followed by one row per iteration, [len(initial) + N]
    rows in all; and for every [k < N], the series after [k] iterations is
    the initial series followed by the first [k] of these rows, and the
    reading of iteration [k] is later than its last timestamp. *)
Theorem simulate_appends (feed : nat -> tick) (N : nat) (df : frame) (w : world) :
  (forall i, (i < N)%nat -> succeeds (feed i)) ->
  StronglySorted Z.lt (index df ++ readings feed 0 N) ->
  (exists w', simulate_realtime feed (Z.of_nat N) (df, w)
              = ((df ++ rows feed 0 N, w'), inr (df ++ rows feed 0 N))) /\
  length (df ++ rows feed 0 N) = (length df + N)%nat /\
  (forall k, (k < N)%nat ->
     (exists w', simulate_realtime feed (Z.of_nat k) (df, w)
                 = ((df ++ rows feed 0 k, w'), inr (df ++ rows feed 0 k))) /\
     (forall t, last_timestamp (df ++ rows feed 0 k) = Some t -> t < now (feed k))).
Proof.
  intros Hok Hs. split; [|split].
  - now apply simulate_realtime_run.
  - unfold rows. now rewrite List.length_app, List.length_map, List.length_seq.
  - intros k Hk.
    rewrite (readings_split feed k N Hk), List.app_assoc in Hs. split.
    + apply simulate_realtime_run.
      * intros i Hi. apply Hok. lia.
      * exact (sorted_app_l _ _ Hs).
    + intros t Hlast. unfold last_timestamp in Hlast.
      rewrite index_app, index_rows in Hlast.
      apply (sorted_before _ _ _ Hs).
      apply last_Some in Hlast as [l' ->]. apply in_or_app. right. now left.
Qed.

(** C9 (frame effect of the loop), amended: the loop leaves every row that
    was in the series before the call where it was and as it was, provided
    no successful iteration reads a clock value that is already a label of
    the series; this holds for the caller's object also when an iteration
    raises. *)
Theorem simulate_keeps_existing_rows
    (feed : nat -> tick) (minutes : Z) (df : frame) (w : world) :
  (forall i, (i < Z.to_nat minutes)%nat -> succeeds (feed i) ->
             ~ In (now (feed i)) (index df)) ->
  exists extra w' r,
    simulate_realtime feed minutes (df, w) = ((df ++ extra, w'), r) /\
    firstn (length df) (df ++ extra) = df /\
    (forall out, r = inr out -> out = df ++ extra).
Proof.
  intros Hnew.
  destruct (simulate_realtime_unfold feed minutes df w) as [w0 ->].
  destruct (for_each_poll_keeps_prefix feed df (Z.to_nat minutes) 0 [] w0)
    as (extra & w' & r & Hrun).
  { intros i Hi. apply Hnew. lia. }
  rewrite List.app_nil_r in Hrun. rewrite Hrun.
  assert (Hpre : firstn (length df) (df ++ extra) = df).
  { rewrite List.firstn_app, Nat.sub_diag, List.firstn_all. cbn. apply List.app_nil_r. }
  destruct r as [e|[]].
  - exists extra, w', (inl e). repeat split; [assumption | discriminate].
  - exists extra, w', (inr (df ++ extra)). repeat split; [assumption | congruence].
Qed.

Lemma simulate_appends_witness :
  length (one_row ++ rows steady_feed 0 3) = (length one_row + 3)%nat.
Proof.
  refine (proj1 (proj2 (simulate_appends steady_feed 3 one_row no_world _ _))).
  - intros i _. eexists. reflexivity.
  - vm_compute. repeat constructor.
Defined.

Lemma simulate_keeps_existing_rows_witness :
  exists extra w' r,
    simulate_realtime steady_feed 3 (two_rows, no_world) = ((two_rows ++ extra, w'), r) /\
    firstn (length two_rows) (two_rows ++ extra) = two_rows /\
    (forall out, r = inr out -> out = two_rows ++ extra).
Proof.
  apply (simulate_keeps_existing_rows steady_feed 3 two_rows no_world).
  intros i Hi _ Hin. change (Z.to_nat 3) with 3%nat in Hi.
  destruct i as [|[|[|i]]]; [| | |lia]; vm_compute in Hin; intuition discriminate.
Defined.

(** C3, as stated: a reading equal to a label of the series overwrites that
    row, so one successful iteration on a one-row series returns one row,
    not two; the reading is not later than the last timestamp either. *)
Lemma simulate_frozen_clock_no_growth :
  snd (simulate_realtime frozen_feed 1 (one_row, no_world))
  = inr [(100 * Freq.second, Some 7%Q)] /\
  length [(100 * Freq.second, Some 7%Q)] <> (length one_row + 1)%nat /\
  last_timestamp one_row = Some (now (frozen_feed 0)).
Proof. repeat split. discriminate. Qed.

(** C9, as stated: the same reading replaces the price of a row that was
    there before the call. *)
Lemma simulate_frozen_clock_overwrites :
  snd (simulate_realtime frozen_feed 1 (two_rows, no_world))
  = inr [(100 * Freq.second, Some 7%Q); (160 * Freq.second, Some 6%Q)] /\
  firstn (length two_rows)
         [(100 * Freq.second, Some 7%Q); (160 * Freq.second, Some 6%Q)] <> two_rows.
Proof. split; [reflexivity | discriminate]. Qed.

(** ** Ingestion *)

Lemma py_contains_absent (k : string) (m : gmap string json) :
  m !! k = None -> py_contains k (JObj m) = inr false.
Proof.
  intros Hk. cbn. f_equal. apply bool_decide_eq_false. rewrite Hk.
  intros [x Hx]. discriminate.
Qed.

Lemma py_contains_present (k : string) (m : gmap string json) (v : json) :
  m !! k = Some v -> py_contains k (JObj m) = inr true.
Proof.
  intros Hk. cbn. f_equal. apply bool_decide_eq_true. rewrite Hk. now exists v.
Qed.

Section Ingestion.
Context {pandas : Pandas}.

(** The branch [if "prices" not in data] of [fetch_and_process_data]. *)
Lemma fetch_and_process_data_no_prices
    (days : Z) (filename title : string) (resp : response) (data : json) (w : world) :
  json_body resp = inr data ->
  py_contains "prices" data = inr false ->
  fetch_and_process_data days filename title (inr resp) w
  = (log_errors [MsgUnexpectedResponse days; MsgRaw (text resp)] w, inr None).
Proof.
  intros Hbody Hin.
  unfold fetch_and_process_data, bind, lift. rewrite Hbody, Hin. cbn.
  unfold log_errors. cbn. now rewrite <- List.app_assoc.
Qed.

(** The other branch, on a payload that pandas accepts. *)
Lemma fetch_and_process_data_prices
    (days : Z) (filename title : string) (resp : response)
    (m : gmap string json) (payload : json) (df : frame) (w : world) :
  json_body resp = inr (JObj m) ->
  m !! "prices" = Some payload ->
  read_prices payload = inr df ->
  snd (fetch_and_process_data days filename title (inr resp) w)
  = inr (Some (dropna (resample_mean (resample_rule days) df))).
Proof.
  intros Hbody Hm Hdf.
  unfold fetch_and_process_data, bind, lift.
  rewrite Hbody, (py_contains_present _ _ _ Hm). cbn. rewrite Hm, Hdf. reflexivity.
Qed.

(** The [except KeyError] branch of [fetch_historical_data]. *)
Lemma fetch_historical_data_no_prices
    (resp : response) (m : gmap string json) (w : world) :
  json_body resp = inr (JObj m) ->
  m !! "prices" = None ->
  fetch_historical_data (inr resp) w
  = (log_errors [MsgUnexpectedFormat; MsgRaw (text resp)] w, inl (KeyError "prices")).
Proof.
  intros Hbody Hm.
  unfold fetch_historical_data, bind, lift, except_KeyError. rewrite Hbody. cbn.
  rewrite Hm. cbn. unfold log_errors. cbn. now rewrite <- List.app_assoc.
Qed.

(** C4 (malformed-response handling), amended: when the decoded body lacks
    the price field (the test ["prices" not in data] holds), the function
    logs the raw response text at error level and returns [None]; no frame
    is returned and no file is written.  [None] itself carries nothing of
    the response. *)
Theorem fetch_and_process_data_bad_response
    (days : Z) (filename title : string) (resp : response) (data : json) (w : world) :
  json_body resp = inr data ->
  py_contains "prices" data = inr false ->
  let out := fetch_and_process_data days filename title (inr resp) w in
  snd out = inr None /\
  files (fst out) = files w /\
  logs (fst out)
  = logs w ++ [LogError (MsgUnexpectedResponse days); LogError (MsgRaw (text resp))].
Proof.
  intros Hbody Hin out. subst out.
  rewrite (fetch_and_process_data_no_prices days filename title resp data w Hbody Hin).
  repeat split.
Qed.

(** C5 (frequency selection): on a well-formed response the frame returned
    is the payload resampled by the mean and stripped of empty bins, with
    1-minute bins for a 1-day lookback, 1-hour bins for a 30-day lookback
    and 1-day bins for every longer lookback. *)
Theorem lookback_selects_frequency
    (days : Z) (filename title : string) (resp : response)
    (m : gmap string json) (payload : json) (df : frame) (w : world) :
  json_body resp = inr (JObj m) ->
  m !! "prices" = Some payload ->
  read_prices payload = inr df ->
  (days = 1 ->
   snd (fetch_and_process_data days filename title (inr resp) w)
   = inr (Some (dropna (resample_mean Freq.minute df)))) /\
  (days = 30 ->
   snd (fetch_and_process_data days filename title (inr resp) w)
   = inr (Some (dropna (resample_mean Freq.hour df)))) /\
  (30 < days ->
   snd (fetch_and_process_data days filename title (inr resp) w)
   = inr (Some (dropna (resample_mean Freq.day df)))).
Proof.
  intros Hbody Hm Hdf.
  rewrite (fetch_and_process_data_prices days filename title resp m payload df w Hbody Hm Hdf).
  unfold resample_rule. repeat split; intros Hd.
  - now subst.
  - now subst.
  - destruct (Z.eqb_spec days 1); [lia|]. destruct (Z.eqb_spec days 30); [lia|].
    reflexivity.
Qed.

(** C10 (the two ingestion paths differ on a missing key): when the decoded
    body is an object without the key "prices", [fetch_historical_data]
    logs the raw response and lets the KeyError reach its caller, with no
    frame, while [fetch_and_process_data] logs it and returns [None]. *)
Theorem missing_prices_key_two_paths
    (days : Z) (filename title : string) (resp : response)
    (m : gmap string json) (w : world) :
  json_body resp = inr (JObj m) ->
  m !! "prices" = None ->
  fetch_historical_data (inr resp) w
  = (log_errors [MsgUnexpectedFormat; MsgRaw (text resp)] w, inl (KeyError "prices")) /\
  fetch_and_process_data days filename title (inr resp) w
  = (log_errors [MsgUnexpectedResponse days; MsgRaw (text resp)] w, inr None).
Proof.
  intros Hbody Hm. split.
  - now apply (fetch_historical_data_no_prices resp m w).
  - apply (fetch_and_process_data_no_prices _ _ _ _ (JObj m)); [assumption|].
    now apply py_contains_absent.
Qed.
End Ingestion.

Lemma fetch_and_process_data_bad_response_witness :
  snd (fetch_and_process_data 1 "btc_1d.csv" "1 Day" (inr rate_limited) no_world) = inr None /\
  files (fst (fetch_and_process_data 1 "btc_1d.csv" "1 Day" (inr rate_limited) no_world)) = [] /\
  logs (fst (fetch_and_process_data 1 "btc_1d.csv" "1 Day" (inr rate_limited) no_world))
  = [LogError (MsgUnexpectedResponse 1); LogError (MsgRaw (text rate_limited))].
Proof.
  apply (fetch_and_process_data_bad_response 1 "btc_1d.csv" "1 Day" rate_limited
           (JObj {[ "error"%string := JStr "rate limited" ]}) no_world).
  - reflexivity.
  - vm_compute. reflexivity.
Defined.

(** C4, as stated: two different raw responses without the price field give
    one and the same return value, [None]; what is returned does not carry
    the raw response. *)
Lemma none_carries_no_response :
  text empty_object <> text rate_limited /\
  snd (fetch_and_process_data 1 "btc_1d.csv" "1 Day" (inr empty_object) no_world) = inr None /\
  snd (fetch_and_process_data 1 "btc_1d.csv" "1 Day" (inr rate_limited) no_world) = inr None.
Proof. split; [discriminate|]. split; vm_compute; reflexivity. Qed.

Lemma lookback_selects_frequency_witness :
  snd (fetch_and_process_data 30 "btc_30d.csv" "30 Days" (inr market_chart) no_world)
  = inr (Some (dropna (resample_mean Freq.hour (scenario 0)))).
Proof.
  refine (proj1 (proj2 (lookback_selects_frequency 30 "btc_30d.csv" "30 Days" market_chart
            {[ "prices"%string := price_table ]} price_table (scenario 0) no_world _ _ _)) _).
  - reflexivity.
  - vm_compute. reflexivity.
  - vm_compute. reflexivity.
  - reflexivity.
Defined.

Lemma missing_prices_key_two_paths_witness :
  fetch_historical_data (inr rate_limited) no_world
  = (log_errors [MsgUnexpectedFormat; MsgRaw (text rate_limited)] no_world,
     inl (KeyError "prices")) /\
  fetch_and_process_data 1 "btc_1d.csv" "1 Day" (inr rate_limited) no_world
  = (log_errors [MsgUnexpectedResponse 1; MsgRaw (text rate_limited)] no_world, inr None).
Proof.
  apply (missing_prices_key_two_paths 1 "btc_1d.csv" "1 Day" rate_limited
           {[ "error"%string := JStr "rate limited" ]} no_world).
  - reflexivity.
  - vm_compute. reflexivity.
Defined.

(** ** Forecasting *)

Lemma nth_error_map_seq {A} (g : nat -> A) : forall (n s i : nat),
  (i < n)%nat -> nth_error (List.map g (seq s n)) i = Some (g (s + i)%nat).
Proof.
  induction n as [|n IH]; intros s i Hi; [lia|].
  destruct i as [|i]; cbn.
  - now rewrite Nat.add_0_r.
  - rewrite IH by lia. now rewrite Nat.add_succ_r.
Qed.

Lemma date_range_length (start : Z) (periods : nat) (freq : Z) :
  length (date_range start periods freq) = periods.
Proof. unfold date_range. now rewrite List.length_map, List.length_seq. Qed.

Lemma date_range_nth (start : Z) (periods : nat) (freq : Z) (i : nat) :
  (i < periods)%nat ->
  nth_error (date_range start periods freq) i = Some (start + Z.of_nat i * freq).
Proof. intros Hi. unfold date_range. now rewrite nth_error_map_seq. Qed.

Lemma date_range_nth_inv (start : Z) (periods : nat) (freq : Z) (i : nat) (t : Z) :
  nth_error (date_range start periods freq) i = Some t ->
  (i < periods)%nat /\ t = start + Z.of_nat i * freq.
Proof.
  intros Hi.
  assert (Hlt : (i < periods)%nat).
  { rewrite <- (date_range_length start periods freq). apply nth_error_Some. congruence. }
  rewrite (date_range_nth _ _ _ _ Hlt) in Hi. split; congruence.
Qed.

Lemma index_combine (ts : list Z) (vals : list cell) :
  length ts = length vals -> index (combine ts vals) = ts.
Proof.
  revert vals. induction ts as [|t ts IH]; intros [|v vals] Hlen; try discriminate.
  - reflexivity.
  - cbn. f_equal. apply IH. now inversion Hlen.
Qed.

Lemma prices_combine (ts : list Z) (vals : list cell) :
  length ts = length vals -> prices (combine ts vals) = vals.
Proof.
  revert vals. induction ts as [|t ts IH]; intros [|v vals] Hlen; try discriminate.
  - reflexivity.
  - cbn. f_equal. apply IH. now inversion Hlen.
Qed.

Lemma sorted_last_is_max (l : list Z) (x : Z) :
  StronglySorted Z.le l -> last l = Some x -> forall y, In y l -> y <= x.
Proof.
  intros Hs Hlast y Hy. apply last_Some in Hlast as [l' ->].
  apply in_app_or in Hy as [Hy|[->|[]]]; [|lia].
  clear -Hs Hy. induction l' as [|a l' IH]; [destruct Hy|].
  cbn in Hs. apply StronglySorted_inv in Hs as [Hs Ha].
  destruct Hy as [->|Hy]; [|now apply IH].
  rewrite List.Forall_forall in Ha. apply Ha. apply in_or_app. right. now left.
Qed.

Lemma ffill_from_length (df : frame) : forall prev, length (ffill_from prev df) = length df.
Proof.
  induction df as [|[t v] df IH]; intros prev; [reflexivity|].
  cbn. now rewrite IH.
Qed.

Lemma resample_mean_length (f t : Z) (ts : list Z) (df : frame) :
  0 < f -> index df = t :: ts ->
  length (resample_mean f df)
  = Z.to_nat (fold_right Z.max t ts / f - fold_right Z.min t ts / f + 1).
Proof.
  intros Hf Hidx. unfold resample_mean. rewrite Hidx.
  rewrite List.length_map, List.length_seq. unfold first_bin, last_bin.
  now rewrite bucket_span.
Qed.

Section Forecast.
Context {arima : Arima}.

Lemma run_arima_analysis_inv (df : frame) (res : results) (forecast : list Q) :
  run_arima_analysis df = inr (res, forecast) ->
  arima_fit (ffill (resample_mean Freq.minute df)) (2, 1, 2)%nat = inr res /\
  arima_forecast res 30 = inr forecast.
Proof.
  unfold run_arima_analysis.
  destruct (arima_fit _ _) as [e|r]; [discriminate|].
  destruct (arima_forecast r 30) as [e|fc] eqn:Hfc; [discriminate|].
  intros E. inversion E; subst. now split.
Qed.

(** C1 (forecast index continuity and forecast length): after a call of
    [run_arima_analysis] that returns, on a series whose last timestamp is
    [origin], the forecast holds 30 values, and the index that
    [save_to_csv] and [plot_forecast] build for it holds 30 timestamps, the
    i-th being [origin + (i + 1)] minutes: the first is one minute after
    [origin], consecutive ones are one minute apart, all are later than
    [origin], hence later than every timestamp of an ascending input. *)
Theorem forecast_index_continues
    (df : frame) (origin : Z) (res : results) (forecast : list Q) (w : world) :
  last_timestamp df = Some origin ->
  run_arima_analysis df = inr (res, forecast) ->
  length forecast = 30%nat /\
  exists forecast_df,
    save_to_csv df forecast w
    = ({| logs := logs w ++ [LogInfo MsgForecastSaved];
          files := files w ++ [("btc_full_data.csv"%string, df);
                               ("btc_price_forecast.csv"%string, forecast_df)] |},
       inr tt) /\
    plot_forecast df forecast = inr (skipn (length df - 120) df, forecast_df) /\
    length forecast_df = 30%nat /\
    prices forecast_df = List.map Some forecast /\
    (forall i, (i < 30)%nat ->
       nth_error (index forecast_df) i
       = Some (origin + Freq.minute * (Z.of_nat i + 1))) /\
    (forall i a b, nth_error (index forecast_df) i = Some a ->
       nth_error (index forecast_df) (S i) = Some b -> b - a = Freq.minute) /\
    (forall t, In t (index forecast_df) -> origin < t) /\
    (StronglySorted Z.le (index df) ->
     forall t t', In t (index df) -> In t' (index forecast_df) -> t < t').
Proof.
  intros Hlast Hrun.
  destruct (run_arima_analysis_inv df res forecast Hrun) as [_ Hfc].
  pose proof (forecast_steps res 30%nat forecast Hfc) as Hlen.
  split; [assumption|].
  set (idx := date_range (origin + 1 * Freq.minute) 30 Freq.minute).
  assert (Hidx : forecast_index df = inr idx).
  { unfold forecast_index. now rewrite Hlast. }
  assert (Hlens : length idx = length (List.map Some forecast)).
  { subst idx. now rewrite date_range_length, List.length_map. }
  assert (Hzip : zip_columns idx forecast = inr (combine idx (List.map Some forecast))).
  { unfold zip_columns. rewrite List.length_map in Hlens. rewrite Hlens.
    now rewrite Nat.eqb_refl. }
  assert (Hindex : index (combine idx (List.map Some forecast)) = idx)
    by now apply index_combine.
  assert (Hafter : forall t, In t idx -> origin < t).
  { intros t Ht. apply In_nth_error in Ht as [i Hi].
    apply date_range_nth_inv in Hi as [_ ->].
    assert (0 < Freq.minute) by reflexivity. nia. }
  exists (combine idx (List.map Some forecast)). rewrite Hindex. repeat split.
  - unfold save_to_csv, bind, lift, to_csv, logger_info. cbn. rewrite Hidx, Hzip. cbn.
    now rewrite <- List.app_assoc.
  - unfold plot_forecast. now rewrite Hidx, Hzip.
  - rewrite List.length_combine, <- Hlens. subst idx.
    rewrite date_range_length. reflexivity.
  - now apply prices_combine.
  - intros i Hi. subst idx. rewrite date_range_nth by assumption. f_equal. lia.
  - intros i a b Ha Hb. subst idx.
    apply date_range_nth_inv in Ha as [_ ->]. apply date_range_nth_inv in Hb as [_ ->].
    lia.
  - assumption.
  - intros Hs t t' Ht Ht'.
    pose proof (sorted_last_is_max (index df) origin Hs Hlast t Ht).
    pose proof (Hafter t' Ht'). lia.
Qed.

(** C6 (short input), amended: [run_arima_analysis] does not count the
    points of its input.  What it fits is the 1-minute resample of the
    input, forward-filled: one row per minute bin from the bin of the
    earliest observation to the bin of the latest one, so six rows or more
    as soon as the observations span five minutes, however few they are.
    It returns a forecast whenever the library fits that series and
    forecasts from it, and lets the library's exception through otherwise,
    be it raised by the fit or by the forecast. *)
Theorem run_arima_analysis_fits_the_resample (df : frame) (t : Z) (ts : list Z) :
  index df = t :: ts ->
  let earliest := fold_right Z.min t ts in
  let latest := fold_right Z.max t ts in
  let fitted := ffill (resample_mean Freq.minute df) in
  length fitted = Z.to_nat (latest / Freq.minute - earliest / Freq.minute + 1) /\
  (5 * Freq.minute <= latest - earliest -> (6 <= length fitted)%nat) /\
  (forall e, arima_fit fitted (2, 1, 2)%nat = inl e -> run_arima_analysis df = inl e) /\
  (forall res e,
     arima_fit fitted (2, 1, 2)%nat = inr res ->
     arima_forecast res 30 = inl e ->
     run_arima_analysis df = inl e) /\
  (forall res forecast,
     arima_fit fitted (2, 1, 2)%nat = inr res ->
     arima_forecast res 30 = inr forecast ->
     run_arima_analysis df = inr (res, forecast)).
Proof.
  intros Hidx earliest latest fitted.
  assert (Hf : 0 < Freq.minute) by reflexivity.
  assert (Hlen : length fitted
                 = Z.to_nat (latest / Freq.minute - earliest / Freq.minute + 1)).
  { subst fitted. unfold ffill. rewrite ffill_from_length.
    now apply resample_mean_length. }
  split; [assumption|]. split; [|split; [|split]].
  - intros Hspan. rewrite Hlen.
    assert (earliest / Freq.minute + 5 <= latest / Freq.minute).
    { rewrite <- Z.div_add by lia. apply Z.div_le_mono; lia. }
    lia.
  - intros e He. unfold run_arima_analysis. fold fitted. now rewrite He.
  - intros res e Hres He. unfold run_arima_analysis. fold fitted.
    now rewrite Hres, He.
  - intros res forecast Hres Hfc. unfold run_arima_analysis. fold fitted.
    now rewrite Hres, Hfc.
Qed.
End Forecast.

(** C6, as stated: three observations on three consecutive minutes, fewer
    than six and without a gap, get a forecast.  Nothing in
    [run_arima_analysis] counts the rows, and a library that sets no minimum
    length fits the three rows that reach it. *)
Lemma short_input_is_forecast :
  (length three_minutes < 6)%nat /\
  length (ffill (resample_mean Freq.minute three_minutes)) = 3%nat /\
  run_arima_analysis (arima := persistence_arima) three_minutes
  = inr (98%Q, repeat 98%Q 30).
Proof.
  split; [cbn; lia|]. split; vm_compute; reflexivity.
Qed.

Lemma run_arima_analysis_fits_the_resample_witness :
  length (ffill (resample_mean Freq.minute sparse)) = Z.to_nat (10 - 0 + 1).
Proof.
  exact (proj1 (run_arima_analysis_fits_the_resample (arima := persistence_arima) sparse
                  0 [10 * Freq.minute] eq_refl)).
Defined.

Lemma forecast_index_continues_witness :
  length (repeat 110%Q 30) = 30%nat /\
  exists forecast_df,
    save_to_csv sparse (repeat 110%Q 30) no_world
    = ({| logs := [LogInfo MsgForecastSaved];
          files := [("btc_full_data.csv"%string, sparse);
                    ("btc_price_forecast.csv"%string, forecast_df)] |}, inr tt) /\
    nth_error (index forecast_df) 0 = Some (11 * Freq.minute).
Proof.
  destruct (forecast_index_continues (arima := persistence_arima) sparse (10 * Freq.minute)
              110%Q (repeat 110%Q 30) no_world eq_refl eq_refl)
    as [Hlen [fdf (Hsave & _ & _ & _ & Hnth & _)]].
  split; [exact Hlen|]. exists fdf. split; [exact Hsave|].
  exact (Hnth 0%nat ltac:(lia)).
Defined.

(** ** More on the resampler *)

Lemma index_resample_mean (f t : Z) (ts : list Z) (df : frame) :
  index df = t :: ts ->
  index (resample_mean f df)
  = date_range (first_bin f t ts)
      (Z.to_nat ((last_bin f t ts - first_bin f t ts) / f + 1)) f.
Proof.
  intros Hidx. unfold resample_mean. rewrite Hidx. unfold index, date_range.
  rewrite List.map_map. reflexivity.
Qed.

Lemma map_seq_sorted (f start : Z) : forall (n s : nat),
  0 < f ->
  StronglySorted Z.lt (List.map (fun i => start + Z.of_nat i * f) (seq s n)).
Proof.
  induction n as [|n IH]; intros s Hf; cbn; constructor.
  - now apply IH.
  - rewrite List.Forall_forall. intros x Hx.
    apply in_map_iff in Hx as [i [<- Hi]]. apply in_seq in Hi. nia.
Qed.

Lemma date_range_sorted (start : Z) (n : nat) (f : Z) :
  0 < f -> StronglySorted Z.lt (date_range start n f).
Proof. intros Hf. now apply map_seq_sorted. Qed.

Lemma date_range_on_edge (start : Z) (n : nat) (f : Z) :
  f <> 0 -> start mod f = 0 -> Forall (fun t => t mod f = 0) (date_range start n f).
Proof.
  intros Hf Hs. rewrite List.Forall_forall. intros x Hx.
  apply in_map_iff in Hx as [i [<- _]]. now rewrite Z.mod_add.
Qed.

Lemma bucket_of_mod (f t : Z) : f <> 0 -> bucket_of f t mod f = 0.
Proof. intros Hf. unfold bucket_of. rewrite Z.mul_comm. now apply Z.mod_mul. Qed.

Lemma filter_index_sorted (p : Z * option Q -> bool) (df : frame) :
  StronglySorted Z.lt (index df) -> StronglySorted Z.lt (index (List.filter p df)).
Proof.
  induction df as [|r df IH]; intros Hs; [constructor|].
  cbn in Hs. apply StronglySorted_inv in Hs as [Hs Hr]. cbn.
  destruct (p r); [|now apply IH]. cbn. constructor; [now apply IH|].
  rewrite List.Forall_forall in *. intros x Hx. apply Hr.
  unfold index in *. apply in_map_iff in Hx as [y [<- Hy]].
  apply filter_In in Hy as [Hy _]. now apply in_map.
Qed.

(** What [resample(f).mean().dropna()] gives: strictly ascending timestamps,
    each on a bin edge, and a number in every row. *)
Lemma dropna_resample_clean (f : Z) (df : frame) :
  0 < f ->
  StronglySorted Z.lt (index (dropna (resample_mean f df))) /\
  Forall (fun r => fst r mod f = 0 /\ snd r <> None) (dropna (resample_mean f df)).
Proof.
  intros Hf. destruct (index df) as [|t ts] eqn:Hidx.
  - unfold resample_mean. rewrite Hidx. split; constructor.
  - pose proof (index_resample_mean f t ts df Hidx) as Hgrid. split.
    + apply filter_index_sorted. rewrite Hgrid. now apply date_range_sorted.
    + rewrite List.Forall_forall. intros r Hr. apply filter_In in Hr as [Hr Hna].
      split.
      * assert (Hin : In (fst r) (index (resample_mean f df))) by now apply in_map.
        rewrite Hgrid in Hin.
        pose proof (date_range_on_edge (first_bin f t ts)
                      (Z.to_nat ((last_bin f t ts - first_bin f t ts) / f + 1)) f
                      ltac:(lia) (bucket_of_mod f _ ltac:(lia))) as Hall.
        rewrite List.Forall_forall in Hall. now apply Hall.
      * unfold notna in Hna. now destruct (snd r).
Qed.

Lemma resample_rule_pos (days : Z) : 0 < resample_rule days.
Proof.
  unfold resample_rule.
  destruct (days =? 1); [reflexivity|]. destruct (days =? 30); reflexivity.
Qed.

(** ** More on ingestion *)

Section IngestionOutcomes.
Context {pandas : Pandas}.

Lemma fetch_historical_data_returns (http : exn + response) (w : world) (out : frame) :
  snd (fetch_historical_data http w) = inr out ->
  fst (fetch_historical_data http w) = w /\
  exists resp m payload df,
    http = inr resp /\ json_body resp = inr (JObj m) /\ m !! "prices"%string = Some payload /\
    read_prices payload = inr df /\ out = dropna (resample_mean Freq.minute df).
Proof.
  unfold fetch_historical_data, bind, lift, except_KeyError.
  destruct http as [e|resp]; cbn; [discriminate|].
  destruct (json_body resp) as [e|data] eqn:Hbody; cbn.
  { destruct e; cbn; discriminate. }
  destruct data as [| | | | |m]; cbn; try discriminate.
  destruct (m !! "prices"%string) as [payload|] eqn:Hm; cbn; [|discriminate].
  destruct (read_prices payload) as [e|df] eqn:Hdf; cbn; [discriminate|].
  intros E. inversion E; subst. split; [reflexivity|].
  now exists resp, m, payload, df.
Qed.

(** X1: whenever [fetch_historical_data] returns a frame, its timestamps
    ascend strictly, each lies on a minute edge, and every price is a
    number (no NaN row is left). *)
Theorem fetch_historical_data_frame_is_clean
    (http : exn + response) (w : world) (out : frame) :
  snd (fetch_historical_data http w) = inr out ->
  StronglySorted Z.lt (index out) /\
  Forall (fun r => fst r mod Freq.minute = 0 /\ snd r <> None) out.
Proof.
  intros Hout.
  destruct (fetch_historical_data_returns http w out Hout)
    as (_ & resp & m & payload & df & _ & _ & _ & _ & ->).
  apply dropna_resample_clean. reflexivity.
Qed.

(** Every way [fetch_and_process_data] can end. *)
Lemma fetch_and_process_data_cases
    (days : Z) (filename title : string) (http : exn + response) (w : world) :
  (exists e, fetch_and_process_data days filename title http w = (w, inl e)) \/
  (exists resp,
     http = inr resp /\
     fetch_and_process_data days filename title http w
     = (log_errors [MsgUnexpectedResponse days; MsgRaw (text resp)] w, inr None)) \/
  (exists df,
     fetch_and_process_data days filename title http w
     = ({| logs := logs w ++ [LogInfo (MsgSaved title filename)];
           files := files w ++ [(filename, dropna (resample_mean (resample_rule days) df))] |},
        inr (Some (dropna (resample_mean (resample_rule days) df))))).
Proof.
  unfold fetch_and_process_data, bind, lift.
  destruct http as [e|resp]; cbn; [left; eauto|].
  destruct (json_body resp) as [e|data] eqn:Hbody; cbn; [left; eauto|].
  destruct (py_contains "prices" data) as [e|[|]] eqn:Hin; cbn; [left; eauto| |].
  - destruct (py_getitem data "prices") as [e|payload]; cbn; [left; eauto|].
    destruct (read_prices payload) as [e|df]; cbn; [left; eauto|].
    right. right. exists df. reflexivity.
  - right. left. exists resp. split; [reflexivity|].
    unfold log_errors. cbn. now rewrite <- List.app_assoc.
Qed.

(** X2: whenever [fetch_and_process_data] returns a frame, its timestamps
    ascend strictly, each lies on an edge of the bins chosen for the lookback
    (minute, hour or day), and every price is a number. *)
Theorem fetch_and_process_data_frame_is_clean
    (days : Z) (filename title : string) (http : exn + response) (w : world) (out : frame) :
  snd (fetch_and_process_data days filename title http w) = inr (Some out) ->
  StronglySorted Z.lt (index out) /\
  Forall (fun r => fst r mod resample_rule days = 0 /\ snd r <> None) out.
Proof.
  intros Hout.
  destruct (fetch_and_process_data_cases days filename title http w)
    as [[e He]|[[resp [_ He]]|[df He]]]; rewrite He in Hout; try discriminate.
  cbn in Hout. inversion Hout; subst. apply dropna_resample_clean, resample_rule_pos.
Qed.

(** X3: the effects of [fetch_and_process_data] when it returns.  When it
    returns a frame it has written exactly one file, under the name it was
    given and holding that frame, and logged one info line; when it returns
    [None] it has written no file and logged two error lines, the second one
    the raw response. *)
Theorem fetch_and_process_data_effects
    (days : Z) (filename title : string) (http : exn + response) (w : world)
    (out : option (list (Z * option Q))) :
  snd (fetch_and_process_data days filename title http w) = inr out ->
  match out with
  | Some df =>
      files (fst (fetch_and_process_data days filename title http w))
      = files w ++ [(filename, df)] /\
      logs (fst (fetch_and_process_data days filename title http w))
      = logs w ++ [LogInfo (MsgSaved title filename)]
  | None =>
      files (fst (fetch_and_process_data days filename title http w)) = files w /\
      exists resp,
        http = inr resp /\
        logs (fst (fetch_and_process_data days filename title http w))
        = logs w ++ [LogError (MsgUnexpectedResponse days); LogError (MsgRaw (text resp))]
  end.
Proof.
  destruct (fetch_and_process_data_cases days filename title http w)
    as [[e He]|[[resp [Hhttp He]]|[df He]]]; rewrite He; cbn [fst snd]; intros Hout.
  - discriminate.
  - inversion Hout; subst. split; [reflexivity|]. now exists resp.
  - inversion Hout; subst. split; reflexivity.
Qed.

(** X4: the effects of [fetch_historical_data], for every input.  It never
    writes a file.  When decoding the body or reading the key raises
    KeyError, it logs two error lines, the fixed message and then the raw
    response, and raises that KeyError again.  In every other case (the
    request fails, another exception is raised, the frame cannot be built,
    a frame is returned) it logs nothing. *)
Theorem fetch_historical_data_effects (http : exn + response) (w : world) :
  files (fst (fetch_historical_data http w)) = files w /\
  (forall resp k,
     http = inr resp -> decode_and_read resp = inl (KeyError k) ->
     fetch_historical_data http w
     = (log_errors [MsgUnexpectedFormat; MsgRaw (text resp)] w, inl (KeyError k))) /\
  ((forall resp k, http = inr resp -> decode_and_read resp <> inl (KeyError k)) ->
   fst (fetch_historical_data http w) = w).
Proof.
  split; [|split].
  - unfold fetch_historical_data, bind, lift, except_KeyError.
    destruct http as [e|resp]; cbn; [reflexivity|].
    destruct (json_body resp) as [e|data]; cbn.
    { destruct e; reflexivity. }
    destruct data as [| | | | |m]; cbn; try reflexivity.
    destruct (m !! "prices"%string) as [payload|]; cbn; [|reflexivity].
    destruct (read_prices payload); reflexivity.
  - intros resp k -> Hkey. unfold decode_and_read in Hkey.
    unfold fetch_historical_data, bind, lift, except_KeyError. cbn.
    destruct (json_body resp) as [e|data]; cbn.
    + inversion Hkey; subst. cbn. unfold log_errors. cbn.
      now rewrite <- List.app_assoc.
    + rewrite Hkey. cbn. unfold log_errors. cbn. now rewrite <- List.app_assoc.
  - intros Hnot. unfold fetch_historical_data, bind, lift, except_KeyError.
    destruct http as [e|resp]; cbn; [reflexivity|].
    specialize (Hnot resp). unfold decode_and_read in Hnot.
    destruct (json_body resp) as [e|data]; cbn.
    + destruct e; try reflexivity. now destruct (Hnot k eq_refl).
    + destruct (py_getitem data "prices") as [e|payload]; cbn.
      * destruct e; try reflexivity. now destruct (Hnot k eq_refl).
      * destruct (read_prices payload); reflexivity.
Qed.

(** X5: a decoded body that is not an object.  [fetch_historical_data]
    raises TypeError and logs nothing, the raw response included.
    [fetch_and_process_data] raises TypeError as well, with no log line and
    no file, unless the membership test answers that "prices" is absent: a
    list that holds the string "prices", or a string that contains it,
    passes the test and fails at the subscript. *)
Theorem non_object_body_raises_TypeError
    (days : Z) (filename title : string) (resp : response) (data : json) (w : world) :
  json_body resp = inr data ->
  (forall m, data <> JObj m) ->
  fetch_historical_data (inr resp) w = (w, inl TypeError) /\
  (py_contains "prices" data <> inr false ->
   fetch_and_process_data days filename title (inr resp) w = (w, inl TypeError)).
Proof.
  intros Hbody Hobj. split.
  - unfold fetch_historical_data, bind, lift, except_KeyError. rewrite Hbody. cbn.
    destruct data; try reflexivity. now destruct (Hobj m).
  - intros Hin. unfold fetch_and_process_data, bind, lift. rewrite Hbody. cbn.
    destruct data as [| | | | |m]; cbn in *; try reflexivity.
    + destruct (is_substring "prices" s); [reflexivity | congruence].
    + destruct (existsb _ xs); [reflexivity | congruence].
    + now destruct (Hobj m).
Qed.
End IngestionOutcomes.

Lemma fetch_historical_data_frame_is_clean_witness :
  StronglySorted Z.lt (index (dropna (resample_mean Freq.minute (scenario 0)))) /\
  Forall (fun r => fst r mod Freq.minute = 0 /\ snd r <> None)
         (dropna (resample_mean Freq.minute (scenario 0))).
Proof.
  apply (fetch_historical_data_frame_is_clean (pandas := table_pandas)
           (inr market_chart) no_world).
  vm_compute. reflexivity.
Defined.

Lemma fetch_and_process_data_frame_is_clean_witness :
  StronglySorted Z.lt (index (dropna (resample_mean Freq.day (scenario 0)))) /\
  Forall (fun r => fst r mod Freq.day = 0 /\ snd r <> None)
         (dropna (resample_mean Freq.day (scenario 0))).
Proof.
  apply (fetch_and_process_data_frame_is_clean (pandas := table_pandas)
           365 "btc_365d.csv" "365 Days" (inr market_chart) no_world).
  vm_compute. reflexivity.
Defined.

Lemma fetch_and_process_data_effects_witness :
  files (fst (fetch_and_process_data (pandas := table_pandas) 1 "btc_1d.csv" "1 Day"
                (inr market_chart) no_world))
  = [("btc_1d.csv"%string, dropna (resample_mean Freq.minute (scenario 0)))] /\
  logs (fst (fetch_and_process_data (pandas := table_pandas) 1 "btc_1d.csv" "1 Day"
               (inr market_chart) no_world))
  = [LogInfo (MsgSaved "1 Day" "btc_1d.csv")].
Proof.
  apply (fetch_and_process_data_effects (pandas := table_pandas) 1 "btc_1d.csv" "1 Day"
           (inr market_chart) no_world
           (Some (dropna (resample_mean Freq.minute (scenario 0))))).
  vm_compute. reflexivity.
Defined.

Lemma non_object_body_raises_TypeError_witness :
  fetch_historical_data (pandas := table_pandas) (inr plain_message) no_world
  = (no_world, inl TypeError) /\
  fetch_and_process_data (pandas := table_pandas) 1 "btc_1d.csv" "1 Day"
    (inr plain_message) no_world
  = (no_world, inl TypeError).
Proof.
  destruct (non_object_body_raises_TypeError (pandas := table_pandas)
              1 "btc_1d.csv" "1 Day" plain_message (JStr "no prices today")
              no_world eq_refl ltac:(discriminate)) as [Hhist Hproc].
  split; [exact Hhist|]. apply Hproc. vm_compute. discriminate.
Defined.

(** ** Which bins come out *)

Lemma present_In (xs : list (option Q)) (v : Q) : In v (present xs) <-> In (Some v) xs.
Proof.
  unfold present. induction xs as [|[q|] xs IH]; cbn; [tauto| |].
  - rewrite IH. split; intros [E|Hin]; auto; left; congruence.
  - rewrite IH. split; [auto|]. intros [E|Hin]; [discriminate | assumption].
Qed.

Lemma nanmean_number (xs : list (option Q)) :
  (exists m, nanmean xs = Some m) <-> (exists v, In (Some v) xs).
Proof.
  unfold nanmean. split.
  - intros [m Hm]. destruct (present xs) as [|q qs] eqn:Hp; [discriminate|].
    exists q. apply present_In. rewrite Hp. now left.
  - intros [v Hv]. apply present_In in Hv.
    destruct (present xs) as [|q qs]; [destruct Hv | eauto].
Qed.

Lemma bin_mean_number (f b : Z) (df : frame) :
  (exists m, bin_mean f b df = Some m)
  <-> (exists t v, In (t, Some v) df /\ bucket_of f t = b).
Proof.
  unfold bin_mean. rewrite nanmean_number. split.
  - intros [v Hv]. unfold prices in Hv. apply in_map_iff in Hv as [[t c] [Hc Hin]].
    cbn in Hc. subst c. apply filter_In in Hin as [Hin Hb].
    exists t, v. split; [assumption|]. now apply Z.eqb_eq in Hb.
  - intros (t & v & Hin & Hb). exists v. unfold prices.
    apply in_map_iff. exists (t, Some v). split; [reflexivity|].
    apply filter_In. split; [assumption|]. unfold in_bucket. cbn. now apply Z.eqb_eq.
Qed.

Lemma resample_mean_In (f b : Z) (c : option Q) (df : frame) :
  In (b, c) (resample_mean f df) -> c = bin_mean f b df.
Proof.
  unfold resample_mean. destruct (index df) as [|t ts]; [intros []|].
  intros Hin. apply in_map_iff in Hin as [k [E _]]. now inversion E.
Qed.

(** The bin of every timestamp of the frame is a row of the resampled
    frame. *)
Lemma resample_mean_covers (f t : Z) (df : frame) :
  0 < f -> In t (index df) ->
  In (bucket_of f t, bin_mean f (bucket_of f t) df) (resample_mean f df).
Proof.
  intros Hf Ht. unfold resample_mean.
  destruct (index df) as [|t0 ts] eqn:Hidx; [destruct Ht|].
  pose proof (fold_min_le t0 ts t Ht) as Hmin.
  pose proof (fold_max_ge t0 ts t Ht) as Hmax.
  unfold first_bin, last_bin. rewrite bucket_span by assumption.
  set (lo := fold_right Z.min t0 ts) in *. set (hi := fold_right Z.max t0 ts) in *.
  pose proof (Z.div_le_mono lo t f Hf Hmin) as Hlo.
  pose proof (Z.div_le_mono t hi f Hf Hmax) as Hhi.
  apply in_map_iff. exists (Z.to_nat (t / f - lo / f)).
  assert (E : bucket_of f lo + Z.of_nat (Z.to_nat (t / f - lo / f)) * f = bucket_of f t).
  { unfold bucket_of. rewrite Z2Nat.id by lia. lia. }
  cbn zeta. rewrite E. split; [reflexivity|].
  apply in_seq. lia.
Qed.

(** X6: the rows that [resample(f).mean().dropna()] gives are exactly the
    bins that hold a number: a bin label is in the output if and only if some
    observation with a number floors to it, and the value of the row is the
    mean of that bin.  No row stands for a bin without data, and no number is
    left out. *)
Theorem output_bins_are_the_bins_with_data (f b : Z) (df : frame) :
  0 < f ->
  ((exists c, In (b, c) (dropna (resample_mean f df)))
   <-> (exists t v, In (t, Some v) df /\ bucket_of f t = b)) /\
  (forall c, In (b, c) (dropna (resample_mean f df)) -> c = bin_mean f b df) /\
  (forall t, bucket_of f t = b -> b <= t < b + f).
Proof.
  intros Hf. split; [|split].
  - split.
    + intros [c Hin]. apply filter_In in Hin as [Hin Hna].
      apply resample_mean_In in Hin. apply bin_mean_number.
      unfold notna in Hna. cbn in Hna. destruct c as [m|]; [|discriminate].
      now exists m.
    + intros (t & v & Hin & Hb).
      assert (Hbin : exists m, bin_mean f b df = Some m).
      { apply bin_mean_number. now exists t, v. }
      destruct Hbin as [m Hm]. exists (Some m). apply filter_In. split; [|reflexivity].
      rewrite <- Hm, <- Hb. apply resample_mean_covers; [assumption|].
      unfold index. apply in_map_iff. now exists (t, Some v).
  - intros c Hin. apply filter_In in Hin as [Hin _]. now apply resample_mean_In.
  - intros t <-. now apply bucket_of_bounds.
Qed.

Lemma output_bins_are_the_bins_with_data_witness :
  (exists c, In (0, c) (dropna (resample_mean Freq.minute scattered)))
  <-> (exists t v, In (t, Some v) scattered /\ bucket_of Freq.minute t = 0).
Proof.
  exact (proj1 (output_bins_are_the_bins_with_data Freq.minute 0 scattered eq_refl)).
Defined.

(** ** The order of the rows does not matter *)

Lemma cell_eq_refl (c : option Q) : cell_eq c c.
Proof. destruct c; cbn; [reflexivity | exact I]. Qed.

Lemma fold_min_unique (t : Z) (ts : list Z) (m : Z) :
  In m (t :: ts) -> (forall x, In x (t :: ts) -> m <= x) -> fold_right Z.min t ts = m.
Proof.
  intros Hin Hle.
  pose proof (fold_min_le t ts m Hin). pose proof (Hle _ (fold_min_in t ts)). lia.
Qed.

Lemma fold_max_unique (t : Z) (ts : list Z) (m : Z) :
  In m (t :: ts) -> (forall x, In x (t :: ts) -> x <= m) -> fold_right Z.max t ts = m.
Proof.
  intros Hin Hle.
  pose proof (fold_max_ge t ts m Hin). pose proof (Hle _ (fold_max_in t ts)). lia.
Qed.

Lemma Forall2_map_both {A B C} (R : B -> C -> Prop) (g : A -> B) (h : A -> C) (l : list A) :
  (forall a, In a l -> R (g a) (h a)) -> Forall2 R (List.map g l) (List.map h l).
Proof.
  induction l as [|a l IH]; intros Hl; cbn; constructor.
  - apply Hl. now left.
  - apply IH. intros x Hx. apply Hl. now right.
Qed.

Lemma Qsum_perm (xs ys : list Q) : Permutation xs ys -> (Qsum xs == Qsum ys)%Q.
Proof.
  induction 1 as [|x xs ys _ IH|x y xs|xs ys zs _ IH1 _ IH2]; cbn.
  - reflexivity.
  - now rewrite IH.
  - ring.
  - now rewrite IH1.
Qed.

Lemma bin_numbers_perm (p : Z * option Q -> bool) (df df' : frame) :
  Permutation df df' ->
  Permutation (present (prices (List.filter p df))) (present (prices (List.filter p df'))).
Proof.
  unfold present, prices.
  induction 1 as [|[t c] l l' _ IH|[t c] [t' c'] l|l1 l2 l3 _ IH1 _ IH2].
  - constructor.
  - cbn. destruct (p (t, c)); [|assumption]. cbn. destruct c; cbn; [now constructor | assumption].
  - cbn. destruct (p (t, c)), (p (t', c')); cbn; try reflexivity;
      destruct c, c'; cbn; try reflexivity. apply perm_swap.
  - now transitivity (omap id (List.map snd (List.filter p l2))).
Qed.

Lemma nanmean_same_numbers (xs ys : list (option Q)) :
  Permutation (present xs) (present ys) -> cell_eq (nanmean xs) (nanmean ys).
Proof.
  intros Hp. unfold nanmean.
  pose proof (Permutation_length Hp) as Hlen. pose proof (Qsum_perm _ _ Hp) as Hsum.
  destruct (present xs) as [|q qs], (present ys) as [|q' qs']; try discriminate.
  - exact I.
  - cbn [cell_eq]. rewrite Hsum, Hlen. reflexivity.
Qed.

(** X7: for a frame whose timestamps are pairwise distinct, resampling does
    not depend on the order of the rows: the same rows in another order
    resample to the same frame (the polling loop may append a row that is
    earlier than the one before it; [run_arima_analysis] fits the same
    series all the same).  pandas sorts the rows by timestamp before it
    fills the bins, so with distinct timestamps every bin is summed in one
    and the same order whatever the order of the rows. *)
Theorem resample_ignores_row_order (f : Z) (df df' : frame) :
  NoDup (index df) ->
  Permutation df df' ->
  frame_eq (resample_mean f df) (resample_mean f df') /\
  frame_eq (dropna (resample_mean f df)) (dropna (resample_mean f df')).
Proof.
  intros _ Hperm.
  assert (Hidx : Permutation (index df) (index df')) by now apply Permutation_map.
  assert (Heq : frame_eq (resample_mean f df) (resample_mean f df')).
  { unfold resample_mean.
    destruct (index df) as [|t ts] eqn:E, (index df') as [|t' ts'] eqn:E'.
    - constructor.
    - now apply Permutation_nil in Hidx.
    - symmetry in Hidx. now apply Permutation_nil in Hidx.
    - assert (Hmin : first_bin f t' ts' = first_bin f t ts).
      { unfold first_bin. f_equal. apply fold_min_unique.
        - apply (Permutation_in _ Hidx), fold_min_in.
        - intros x Hx. apply fold_min_le. symmetry in Hidx.
          now apply (Permutation_in _ Hidx). }
      assert (Hmax : last_bin f t' ts' = last_bin f t ts).
      { unfold last_bin. f_equal. apply fold_max_unique.
        - apply (Permutation_in _ Hidx), fold_max_in.
        - intros x Hx. apply fold_max_ge. symmetry in Hidx.
          now apply (Permutation_in _ Hidx). }
      rewrite Hmin, Hmax. apply Forall2_map_both. intros k _. split; [reflexivity|].
      cbn. unfold bin_mean. now apply nanmean_same_numbers, bin_numbers_perm. }
  split; [assumption|].
  unfold dropna. induction Heq as [|[ta ca] [tb cb] a b [Ht Hc] _ IH]; [constructor|].
  cbn in *. unfold notna at 1 3. cbn.
  destruct ca, cb; cbn in Hc; try contradiction; [|assumption].
  constructor; [now split | assumption].
Qed.

Lemma resample_ignores_row_order_witness :
  frame_eq (resample_mean Freq.minute scattered)
           (resample_mean Freq.minute (List.rev scattered)).
Proof.
  refine (proj1 (resample_ignores_row_order Freq.minute scattered (List.rev scattered)
                   _ (Permutation_rev scattered))).
  apply (bool_decide_unpack (NoDup (index scattered))). vm_compute. reflexivity.
Defined.

(** ** Resampling a resampled frame *)

Lemma date_range_succ (start : Z) (n : nat) (f : Z) :
  date_range start (S n) f = start :: date_range (start + f) n f.
Proof.
  unfold date_range. cbn [seq List.map]. f_equal; [lia|].
  rewrite <- seq_shift, List.map_map. apply List.map_ext. intros i. lia.
Qed.

Lemma grid_at_of_index (f : Z) (df : frame) : forall (t : Z) (n : nat),
  index df = date_range t n f -> grid_at f t df.
Proof.
  induction df as [|[t' c] df IH]; intros t n Hidx; [exact I|].
  destruct n as [|n]; [discriminate|].
  rewrite date_range_succ in Hidx. cbn in Hidx. inversion Hidx; subst.
  split; [reflexivity|]. now apply (IH _ n).
Qed.

Lemma resample_mean_grid (f t : Z) (ts : list Z) (df : frame) :
  index df = t :: ts -> grid_at f (first_bin f t ts) (resample_mean f df).
Proof.
  intros Hidx. eapply grid_at_of_index. now apply index_resample_mean.
Qed.

Section Grid.
Variable f : Z.
Hypothesis f_pos : 0 < f.

Lemma grid_at_nth (df : frame) : forall (t : Z) (k : nat) (r : Z * option Q),
  grid_at f t df -> nth_error df k = Some r -> fst r = t + Z.of_nat k * f.
Proof.
  induction df as [|[t' v] rest IH]; intros t k r Hgrid Hk.
  - destruct k; discriminate.
  - destruct Hgrid as [-> Hrest]. destruct k as [|k]; cbn in Hk.
    + inversion Hk; subst. cbn. lia.
    + rewrite (IH _ _ _ Hrest Hk). lia.
Qed.

Lemma grid_filter_before (df : frame) : forall (t b : Z),
  grid_at f t df -> t mod f = 0 -> b < t -> List.filter (in_bucket f b) df = [].
Proof.
  induction df as [|[t' v] rest IH]; intros t b Hgrid Hedge Hlt; [reflexivity|].
  destruct Hgrid as [-> Hrest]. cbn [List.filter].
  unfold in_bucket at 1. cbn [fst]. rewrite (bucket_of_on_edge f f_pos t Hedge).
  destruct (Z.eqb_spec t b) as [->|_]; [lia|].
  apply (IH (t + f)); [assumption | | lia].
  rewrite <- (Z.mul_1_l f) at 1. rewrite Z.mod_add by lia. assumption.
Qed.

(** A bin of a frame on a grid holds the row it labels and nothing else. *)
Lemma grid_filter (df : frame) : forall (t : Z) (k : nat),
  grid_at f t df -> t mod f = 0 ->
  List.filter (in_bucket f (t + Z.of_nat k * f)) df
  = match nth_error df k with Some r => [r] | None => [] end.
Proof.
  induction df as [|[t' v] rest IH]; intros t k Hgrid Hedge.
  - destruct k; reflexivity.
  - destruct Hgrid as [-> Hrest].
    assert (Hedge' : (t + f) mod f = 0).
    { rewrite <- (Z.mul_1_l f) at 1. rewrite Z.mod_add by lia. assumption. }
    cbn [List.filter]. unfold in_bucket at 1. cbn [fst].
    rewrite (bucket_of_on_edge f f_pos t Hedge).
    destruct k as [|k]; cbn [nth_error].
    + replace (t + Z.of_nat 0 * f) with t by lia. rewrite Z.eqb_refl.
      f_equal. apply (grid_filter_before rest (t + f)); [assumption..|lia].
    + destruct (Z.eqb_spec t (t + Z.of_nat (S k) * f)) as [E|_]; [nia|].
      replace (t + Z.of_nat (S k) * f) with (t + f + Z.of_nat k * f) by lia.
      now apply IH.
Qed.

Lemma filter_swap {A} (p q : A -> bool) (l : list A) :
  List.filter p (List.filter q l) = List.filter q (List.filter p l).
Proof.
  induction l as [|a l IH]; [reflexivity|]. cbn.
  destruct (p a) eqn:Hp, (q a) eqn:Hq; cbn; rewrite ?Hp, ?Hq, IH; reflexivity.
Qed.

(** Resampling, at the frequency of the grid, a selection of the rows of a
    frame on a grid that keeps its first and its last row: the bins are
    those of the grid, and each holds its own row if the row was kept. *)
Lemma resample_selected_grid (p : Z * option Q -> bool) (grid : frame)
    (lo : Z) (first_row last_row : Z * option Q) :
  grid_at f lo grid -> lo mod f = 0 ->
  nth_error grid 0 = Some first_row -> p first_row = true ->
  nth_error grid (length grid - 1) = Some last_row -> p last_row = true ->
  resample_mean f (List.filter p grid)
  = List.map (fun k => (lo + Z.of_nat k * f,
                        nanmean (prices (List.filter p
                                   match nth_error grid k with Some r => [r] | None => [] end))))
             (seq 0 (length grid)).
Proof.
  intros Hgrid Hedge Hfirst Hpf Hlast Hpl.
  assert (Hlabel : forall x, In x (index (List.filter p grid)) ->
                             lo <= x <= lo + Z.of_nat (length grid - 1) * f).
  { intros x Hx. unfold index in Hx. apply in_map_iff in Hx as [r [<- Hr]].
    apply filter_In in Hr as [Hr _]. apply In_nth_error in Hr as [k Hk].
    rewrite (grid_at_nth grid lo k r Hgrid Hk).
    assert (k < length grid)%nat by (apply nth_error_Some; congruence). nia. }
  assert (Hin_first : In lo (index (List.filter p grid))).
  { unfold index. apply in_map_iff. exists first_row. split.
    - rewrite (grid_at_nth grid lo 0 first_row Hgrid Hfirst). lia.
    - apply filter_In. split; [|assumption]. eapply nth_error_In; eassumption. }
  assert (Hin_last : In (lo + Z.of_nat (length grid - 1) * f) (index (List.filter p grid))).
  { unfold index. apply in_map_iff. exists last_row. split.
    - now rewrite (grid_at_nth grid lo _ last_row Hgrid Hlast).
    - apply filter_In. split; [|assumption]. eapply nth_error_In; eassumption. }
  assert (Hlen : (0 < length grid)%nat) by (apply nth_error_Some; congruence).
  unfold resample_mean.
  destruct (index (List.filter p grid)) as [|t ts] eqn:Hidx; [destruct Hin_first|].
  unfold first_bin, last_bin.
  rewrite (fold_min_unique t ts lo Hin_first (fun x Hx => proj1 (Hlabel x Hx))).
  rewrite (fold_max_unique t ts _ Hin_last (fun x Hx => proj2 (Hlabel x Hx))).
  rewrite bucket_of_shift, (bucket_of_on_edge f f_pos lo Hedge) by assumption.
  replace (lo + Z.of_nat (length grid - 1) * f - lo)
    with (Z.of_nat (length grid - 1) * f) by lia.
  rewrite Z.div_mul by lia.
  replace (Z.to_nat (Z.of_nat (length grid - 1) + 1)) with (length grid) by lia.
  apply List.map_ext. intros k. cbn zeta. f_equal. unfold bin_mean.
  now rewrite filter_swap, (grid_filter grid lo k Hgrid Hedge).
Qed.
End Grid.

Lemma nanmean_one (c : option Q) : cell_eq (nanmean [c]) c.
Proof. destruct c as [v|]; [apply nanmean_single | exact I]. Qed.

Lemma resample_mean_ends (f t : Z) (ts : list Z) (df : frame) :
  0 < f -> index df = t :: ts ->
  (0 < length (resample_mean f df))%nat /\
  nth_error (resample_mean f df) 0
  = Some (first_bin f t ts, bin_mean f (first_bin f t ts) df) /\
  nth_error (resample_mean f df) (length (resample_mean f df) - 1)
  = Some (last_bin f t ts, bin_mean f (last_bin f t ts) df).
Proof.
  intros Hf Hidx.
  assert (Hle : fold_right Z.min t ts / f <= fold_right Z.max t ts / f).
  { apply Z.div_le_mono; [assumption|]. apply fold_min_le, fold_max_in. }
  pose proof (resample_mean_length f t ts df Hf Hidx) as Hlen.
  split; [lia|]. rewrite Hlen.
  set (n := Z.to_nat (fold_right Z.max t ts / f - fold_right Z.min t ts / f + 1)) in *.
  assert (Hn : Z.to_nat ((last_bin f t ts - first_bin f t ts) / f + 1) = n).
  { unfold first_bin, last_bin. now rewrite bucket_span. }
  unfold resample_mean. rewrite Hidx. cbn zeta. rewrite Hn.
  split.
  - rewrite nth_error_map_seq by lia. cbn. now rewrite Z.add_0_r.
  - rewrite nth_error_map_seq by lia.
    replace (first_bin f t ts + Z.of_nat (0 + (n - 1)) * f) with (last_bin f t ts);
      [reflexivity|].
    unfold first_bin, last_bin, bucket_of. subst n. lia.
Qed.

Lemma bin_of_numeric (f t : Z) (df : frame) :
  numeric df -> In t (index df) -> exists m, bin_mean f (bucket_of f t) df = Some m.
Proof.
  intros Hnum Ht. apply bin_mean_number.
  unfold index in Ht. apply in_map_iff in Ht as [[t' c] [E Hin]]. cbn in E. subst t'.
  unfold numeric in Hnum. rewrite List.Forall_forall in Hnum.
  specialize (Hnum _ Hin). cbn in Hnum. destruct c as [v|]; [|congruence].
  now exists t, v.
Qed.

(** X8: resampling is idempotent: resampling a resampled frame at the same
    frequency gives it back, empty bins (NaN rows) included. *)
Theorem resample_is_idempotent (f : Z) (df : frame) :
  0 < f -> frame_eq (resample_mean f (resample_mean f df)) (resample_mean f df).
Proof.
  intros Hf. destruct (index df) as [|t ts] eqn:Hidx.
  { unfold resample_mean at 2 3. rewrite Hidx. constructor. }
  destruct (resample_mean_ends f t ts df Hf Hidx) as (_ & Hfirst & Hlast).
  pose proof (resample_mean_grid f t ts df Hidx) as Hgrid.
  rewrite <- (filter_all (fun _ => true) (resample_mean f df)) at 1
    by (apply List.Forall_forall; reflexivity).
  rewrite (resample_selected_grid f Hf (fun _ => true) _ _ _ _ Hgrid
             (bucket_of_mod f _ ltac:(lia)) Hfirst eq_refl Hlast eq_refl).
  apply Forall2_map_seq. intros k r Hk. cbn [Nat.add]. rewrite Hk.
  split; cbn [fst snd List.filter prices List.map];
    [symmetry; exact (grid_at_nth f _ _ _ _ Hgrid Hk) | apply nanmean_one].
Qed.

Lemma resample_is_idempotent_witness :
  frame_eq (resample_mean Freq.minute (resample_mean Freq.minute scattered))
           (resample_mean Freq.minute scattered).
Proof. apply resample_is_idempotent. reflexivity. Defined.

(** Dropping the empty bins and resampling again puts them back, when the
    first and the last bin hold a number. *)
Lemma resample_dropna_resample (f : Z) (df : frame) :
  0 < f -> numeric df ->
  frame_eq (resample_mean f (dropna (resample_mean f df))) (resample_mean f df).
Proof.
  intros Hf Hnum. destruct (index df) as [|t ts] eqn:Hidx.
  { unfold resample_mean at 2 3. rewrite Hidx. constructor. }
  destruct (resample_mean_ends f t ts df Hf Hidx) as (_ & Hfirst & Hlast).
  pose proof (resample_mean_grid f t ts df Hidx) as Hgrid.
  assert (Hin : forall x, In x (t :: ts) -> In x (index df)) by now rewrite Hidx.
  destruct (bin_of_numeric f _ df Hnum (Hin _ (fold_min_in t ts))) as [m0 Hm0].
  destruct (bin_of_numeric f _ df Hnum (Hin _ (fold_max_in t ts))) as [m1 Hm1].
  fold (first_bin f t ts) in Hm0. fold (last_bin f t ts) in Hm1.
  rewrite Hm0 in Hfirst. rewrite Hm1 in Hlast.
  unfold dropna.
  rewrite (resample_selected_grid f Hf notna _ _ _ _ Hgrid
             (bucket_of_mod f _ ltac:(lia)) Hfirst eq_refl Hlast eq_refl).
  apply Forall2_map_seq. intros k r Hk. cbn [Nat.add]. rewrite Hk.
  split; cbn [fst snd]; [symmetry; exact (grid_at_nth f _ _ _ _ Hgrid Hk)|].
  destruct r as [tr [v|]]; cbn; [field | exact I].
Qed.

Lemma ffill_from_frame_eq (a b : frame) : forall (p q : option Q),
  frame_eq a b -> cell_eq p q -> frame_eq (ffill_from p a) (ffill_from q b).
Proof.
  intros p q Hab. revert p q.
  induction Hab as [|[ta ca] [tb cb] a b [Ht Hc] _ IH]; intros p q Hpq; [constructor|].
  cbn in *. destruct ca as [x|], cb as [y|]; cbn in Hc; try contradiction.
  - constructor; [now split | now apply IH].
  - constructor; [now split | now apply IH].
Qed.

Section Pipeline.
Context {pandas : Pandas}.

(** X9: fetching and then fitting.  When the provider's observations are
    all numbers, the frame that [fetch_historical_data] returns (empty
    minutes dropped) is regularised by [run_arima_analysis] into the same
    series, timestamps and values, as the observations themselves would be:
    dropping the gaps on the way loses nothing. *)
Theorem fetched_frame_refits_the_same
    (resp : response) (m : gmap string json) (payload : json) (df : frame) (w : world) :
  json_body resp = inr (JObj m) ->
  m !! "prices"%string = Some payload ->
  read_prices payload = inr df ->
  numeric df ->
  exists fetched,
    fetch_historical_data (inr resp) w = (w, inr fetched) /\
    frame_eq (ffill (resample_mean Freq.minute fetched))
             (ffill (resample_mean Freq.minute df)).
Proof.
  intros Hbody Hm Hdf Hnum. exists (dropna (resample_mean Freq.minute df)). split.
  - unfold fetch_historical_data, bind, lift, except_KeyError. rewrite Hbody. cbn.
    rewrite Hm. cbn. now rewrite Hdf.
  - apply ffill_from_frame_eq; [|exact I].
    apply resample_dropna_resample; [reflexivity | assumption].
Qed.
End Pipeline.

Lemma fetched_frame_refits_the_same_witness :
  exists fetched,
    fetch_historical_data (pandas := table_pandas) (inr market_chart) no_world
    = (no_world, inr fetched) /\
    frame_eq (ffill (resample_mean Freq.minute fetched))
             (ffill (resample_mean Freq.minute (scenario 0))).
Proof.
  apply (fetched_frame_refits_the_same (pandas := table_pandas) market_chart
           {[ "prices"%string := price_table ]} price_table (scenario 0) no_world).
  - reflexivity.
  - vm_compute. reflexivity.
  - vm_compute. reflexivity.
  - repeat constructor; discriminate.
Defined.

Lemma ffill_from_grid_regular (f : Z) (df : frame) : forall (t : Z) (prev : option Q),
  grid_at f t df -> prev <> None -> regular_at f t (ffill_from prev df).
Proof.
  induction df as [|[t' c] df IH]; intros t prev Hgrid Hprev; [exact I|].
  destruct Hgrid as [-> Hrest]. cbn.
  destruct c as [v|]; (split; [reflexivity|]); (split; [congruence|]);
    apply IH; congruence.
Qed.

Section Fitted.
Context {arima : Arima}.

(** X10: what ARIMA is given.  For a non-empty input whose prices are all
    numbers, the series that [run_arima_analysis] fits is regular at one
    minute: it starts on a minute edge, has one row per consecutive minute
    and a number in every row, the minutes without observation being filled
    with the price before them. *)
Theorem fitted_series_is_regular (df : frame) :
  df <> [] -> numeric df ->
  exists fitted,
    fitted <> [] /\ regular Freq.minute fitted /\
    run_arima_analysis df
    = match arima_fit fitted (2, 1, 2)%nat with
      | inl e => inl e
      | inr res =>
          match arima_forecast res 30 with
          | inl e => inl e
          | inr forecast => inr (res, forecast)
          end
      end.
Proof.
  intros Hne Hnum. exists (ffill (resample_mean Freq.minute df)).
  cut (ffill (resample_mean Freq.minute df) <> [] /\
       regular Freq.minute (ffill (resample_mean Freq.minute df))).
  { intros [H1 H2]. split; [assumption|]. split; [assumption | reflexivity]. }
  assert (Hf : 0 < Freq.minute) by reflexivity.
  destruct (index df) as [|t ts] eqn:Hidx.
  { destruct df; [congruence | discriminate]. }
  destruct (resample_mean_ends Freq.minute t ts df Hf Hidx) as (_ & Hfirst & _).
  pose proof (resample_mean_grid Freq.minute t ts df Hidx) as Hgrid.
  assert (Hin : In (fold_right Z.min t ts) (index df))
    by (rewrite Hidx; apply fold_min_in).
  destruct (bin_of_numeric Freq.minute _ df Hnum Hin) as [m0 Hm0].
  fold (first_bin Freq.minute t ts) in Hm0. rewrite Hm0 in Hfirst.
  destruct (resample_mean Freq.minute df) as [|r0 rest] eqn:HR; [discriminate|].
  cbn in Hfirst. inversion Hfirst; subst r0. destruct Hgrid as [_ Hrest].
  split; [discriminate|].
  unfold ffill. cbn. split; [apply bucket_of_mod; lia|].
  split; [reflexivity|]. split; [discriminate|].
  apply ffill_from_grid_regular; [assumption | discriminate].
Qed.
End Fitted.

Lemma fitted_series_is_regular_witness :
  exists fitted,
    fitted <> [] /\ regular Freq.minute fitted /\
    run_arima_analysis (arima := persistence_arima) sparse
    = match arima_fit fitted (2, 1, 2)%nat with
      | inl e => inl e
      | inr res =>
          match arima_forecast res 30 with
          | inl e => inl e
          | inr forecast => inr (res, forecast)
          end
      end.
Proof.
  apply (fitted_series_is_regular (arima := persistence_arima) sparse).
  - discriminate.
  - repeat constructor; discriminate.
Defined.

Lemma present_cons (c : option Q) (xs : list (option Q)) :
  present (c :: xs) = match c with Some q => q :: present xs | None => present xs end.
Proof. now destruct c. Qed.

Lemma ffill_from_nth (df : frame) : forall (prev : option Q) (i : nat) (r : Z * option Q),
  nth_error (ffill_from prev df) i = Some r ->
  exists r0, nth_error df i = Some r0 /\ fst r = fst r0 /\
             snd r = match last_number (S i) (prices df) with
                     | Some q => Some q
                     | None => prev
                     end.
Proof.
  unfold last_number.
  induction df as [|[t c] df IH]; intros prev i r Hi.
  - destruct i; discriminate.
  - change (prices ((t, c) :: df)) with (c :: prices df).
    rewrite firstn_cons, present_cons.
    destruct i as [|i].
    + cbn in Hi. inversion Hi; subst. exists (t, c). cbn.
      repeat split. now destruct c.
    + cbn [ffill_from nth_error] in Hi. apply IH in Hi as (r0 & Hr0 & Hfst & Hsnd).
      exists r0. split; [assumption|]. split; [assumption|]. rewrite Hsnd.
      destruct c as [q|]; [|reflexivity].
      rewrite last_cons. now destruct (last _).
Qed.

(** X11: forward-filling never invents a value and never moves a row: the
    filled frame has the same timestamps, row by row, and each of its cells
    holds the last number found at or before that row in the frame it was
    given, or NaN when there is none yet. *)
Theorem ffill_takes_the_last_number (df : frame) :
  index (ffill df) = index df /\
  forall (i : nat) (r : Z * option Q),
    nth_error (ffill df) i = Some r -> snd r = last_number (S i) (prices df).
Proof.
  split.
  - unfold ffill. generalize (@None Q). induction df as [|[t c] df IH]; intros prev.
    + reflexivity.
    + cbn. f_equal. apply IH.
  - intros i r Hi. apply ffill_from_nth in Hi as (_ & _ & _ & ->).
    now destruct (last_number _ _).
Qed.

(** ** Assignment by label *)

Lemma existsb_index (t : Z) (df : frame) :
  existsb (Z.eqb t) (index df) = true <-> In t (index df).
Proof.
  rewrite existsb_exists. split.
  - intros [x [Hin Hx]]. apply Z.eqb_eq in Hx. now subst.
  - intros Hin. exists t. split; [assumption | apply Z.eqb_refl].
Qed.

(** X12: [df.loc[t] = v].  Afterwards [t] is a label of the frame and every
    row labelled [t] holds [v]; the rows with another label are the same as
    before; the labels are unchanged when [t] was one of them, and otherwise
    one row [(t, v)] is added at the end. *)
Theorem loc_set_assigns (t : Z) (v : option Q) (df : frame) :
  In t (index (loc_set t v df)) /\
  (forall r, In r (loc_set t v df) -> fst r = t -> snd r = v) /\
  (forall r, fst r <> t -> In r (loc_set t v df) <-> In r df) /\
  (In t (index df) -> index (loc_set t v df) = index df) /\
  (~ In t (index df) -> loc_set t v df = df ++ [(t, v)]).
Proof.
  assert (Hindex : index (List.map (fun r : Z * option Q =>
                                   if (fst r =? t)%Z then (fst r, v) else r) df) = index df).
  { unfold index. rewrite List.map_map. apply List.map_ext.
    intros r. now destruct (fst r =? t). }
  unfold loc_set. destruct (existsb (Z.eqb t) (index df)) eqn:E.
  - apply existsb_index in E. split; [|split; [|split; [|split]]].
    + now rewrite Hindex.
    + intros r Hr Ht. apply in_map_iff in Hr as [r0 [<- _]].
      destruct (Z.eqb_spec (fst r0) t) as [_|Hne]; [reflexivity | contradiction].
    + intros r Hne. split; intros Hr.
      * apply in_map_iff in Hr as [r0 [<- Hr0]].
        destruct (Z.eqb_spec (fst r0) t) as [Heq|_]; [cbn in Hne; congruence | assumption].
      * apply in_map_iff. exists r. split; [|assumption].
        destruct (Z.eqb_spec (fst r) t); [contradiction | reflexivity].
    + intros _. exact Hindex.
    + intros Hnot. contradiction.
  - assert (Hnot : ~ In t (index df)).
    { intros Hin. apply existsb_index in Hin. congruence. }
    split; [|split; [|split; [|split]]].
    + rewrite index_app. apply in_or_app. right. now left.
    + intros r Hr Ht. apply in_app_or in Hr as [Hr|[<-|[]]]; [|reflexivity].
      exfalso. apply Hnot. rewrite <- Ht. unfold index. now apply in_map.
    + intros r Hne. split; intros Hr.
      * apply in_app_or in Hr as [Hr|[<-|[]]]; [assumption|]. cbn in Hne. congruence.
      * apply in_or_app. now left.
    + intros Hin. contradiction.
    + intros _. reflexivity.
Qed.

(** ** More on the polling loop *)

Lemma add_logs_nil (w : world) : add_logs [] w = w.
Proof. destruct w. unfold add_logs. cbn. now rewrite List.app_nil_r. Qed.

Lemma add_logs_app (es es' : list log_entry) (w : world) :
  add_logs es' (add_logs es w) = add_logs (es ++ es') w.
Proof. unfold add_logs. cbn. now rewrite List.app_assoc. Qed.

Lemma poll_ok_world (tk : tick) (p : option Q) (df : frame) (w : world) :
  spot tk = inr p ->
  poll tk (df, w)
  = ((loc_set (now tk) p df, add_logs [LogInfo (MsgAppended (now tk) p)] w), inr tt).
Proof.
  intros Hp. unfold poll, bind, lift, set_loc, in_world, logger_info.
  rewrite Hp. reflexivity.
Qed.

Lemma for_each_app {S A} (xs ys : list A) (body : A -> M S unit) : forall s,
  for_each (xs ++ ys) body s
  = match for_each xs body s with
    | (s', inr _) => for_each ys body s'
    | (s', inl e) => (s', inl e)
    end.
Proof.
  induction xs as [|x xs IH]; intros s; [reflexivity|].
  cbn [List.app for_each]. unfold bind.
  destruct (body x s) as [s1 [e|[]]]; [reflexivity | apply IH].
Qed.

(** The loop over iterations [s], ..., [s + n - 1] when all of them go
    through. *)
Lemma for_each_poll_trace (feed : nat -> tick) : forall (n s : nat) (df : frame) (w : world),
  (forall i, (s <= i < s + n)%nat -> succeeds (feed i)) ->
  for_each (seq s n) (fun i => poll (feed i)) (df, w)
  = ((fold_left (fun d i => loc_set (now (feed i)) (price_of (feed i)) d) (seq s n) df,
      add_logs (List.map (fun i => LogInfo (MsgAppended (now (feed i)) (price_of (feed i))))
                         (seq s n)) w),
     inr tt).
Proof.
  induction n as [|n IH]; intros s df w Hok.
  - cbn. now rewrite add_logs_nil.
  - destruct (Hok s ltac:(lia)) as [p Hp].
    assert (Hpp : p = price_of (feed s)) by (unfold price_of; now rewrite Hp).
    subst p. cbn [seq for_each fold_left List.map]. unfold bind at 1.
    rewrite (poll_ok_world _ _ _ _ Hp).
    rewrite IH by (intros i Hi; apply Hok; lia).
    now rewrite add_logs_app.
Qed.

(** X13: a call of [simulate_realtime] whose iterations all go through, for
    every clock and every [minutes], zero and negative values included: the
    readings are assigned by label in the order of the iterations, the frame
    returned is the caller's frame after these assignments, one "simulating"
    line and one line per iteration are logged, and no file is written.
    With [minutes <= 0] nothing is assigned. *)
Theorem simulate_successful_run (feed : nat -> tick) (minutes : Z) (df : frame) (w : world) :
  (forall i, (i < Z.to_nat minutes)%nat -> succeeds (feed i)) ->
  simulate_realtime feed minutes (df, w)
  = ((assigned feed (Z.to_nat minutes) df,
      add_logs (polling_log feed minutes (Z.to_nat minutes)) w),
     inr (assigned feed (Z.to_nat minutes) df)) /\
  (minutes <= 0 -> assigned feed (Z.to_nat minutes) df = df).
Proof.
  intros Hok. split.
  - unfold simulate_realtime, bind at 1, in_world, logger_info. cbn [snd fst].
    unfold bind at 1.
    change {| logs := logs w ++ [LogInfo (MsgSimulating minutes)]; files := files w |}
      with (add_logs [LogInfo (MsgSimulating minutes)] w).
    rewrite for_each_poll_trace by (intros i Hi; apply Hok; lia).
    rewrite add_logs_app. reflexivity.
  - intros Hm. replace (Z.to_nat minutes) with 0%nat by lia. reflexivity.
Qed.

(** X14: a call of [simulate_realtime] that fails.  When the spot request
    of iteration [k] raises after [k] iterations that went through, the call
    raises that exception at once: no later iteration runs, the caller's
    frame keeps the [k] assignments already made, their lines are in the log
    and no file is written. *)
Theorem simulate_aborts_at_first_failure
    (feed : nat -> tick) (minutes : Z) (k : nat) (e : exn) (df : frame) (w : world) :
  (k < Z.to_nat minutes)%nat ->
  (forall i, (i < k)%nat -> succeeds (feed i)) ->
  spot (feed k) = inl e ->
  simulate_realtime feed minutes (df, w)
  = ((assigned feed k df, add_logs (polling_log feed minutes k) w), inl e).
Proof.
  intros Hk Hok He.
  unfold simulate_realtime, bind at 1, in_world, logger_info. cbn [snd fst].
  unfold bind at 1.
  change {| logs := logs w ++ [LogInfo (MsgSimulating minutes)]; files := files w |}
    with (add_logs [LogInfo (MsgSimulating minutes)] w).
  replace (Z.to_nat minutes) with (k + S (Z.to_nat minutes - S k))%nat by lia.
  rewrite seq_app, for_each_app.
  rewrite for_each_poll_trace by (intros i Hi; apply Hok; lia).
  cbn [seq for_each Nat.add]. unfold bind at 1.
  rewrite (poll_raises _ e _ _ He). rewrite add_logs_app. reflexivity.
Qed.

Lemma simulate_successful_run_witness :
  simulate_realtime steady_feed 3 ([], no_world)
  = ((assigned steady_feed 3 [], add_logs (polling_log steady_feed 3 3) no_world),
     inr (assigned steady_feed 3 [])) /\
  length (assigned steady_feed 3 []) = 3%nat.
Proof.
  split; [|reflexivity].
  refine (proj1 (simulate_successful_run steady_feed 3 [] no_world _)).
  intros i _. eexists. reflexivity.
Defined.

Lemma simulate_aborts_at_first_failure_witness :
  simulate_realtime failing_feed 5 (one_row, no_world)
  = ((assigned failing_feed 2 one_row, add_logs (polling_log failing_feed 5 2) no_world),
     inl RequestException) /\
  length (assigned failing_feed 2 one_row) = 3%nat.
Proof.
  split; [|reflexivity].
  apply (simulate_aborts_at_first_failure failing_feed 5 2 RequestException one_row no_world).
  - vm_compute. lia.
  - intros i Hi. destruct i as [|[|i]]; [| |lia]; eexists; reflexivity.
  - reflexivity.
Defined.

(** ** Saving and plotting a forecast *)

Lemma last_timestamp_None (df : frame) : last_timestamp df = None <-> df = [].
Proof.
  unfold last_timestamp. rewrite last_None. unfold index.
  destruct df; cbn; split; congruence.
Qed.

Lemma forecast_index_cases (df : frame) :
  (df = [] /\ forecast_index df = inl IndexError) \/
  (df <> [] /\ exists t, last_timestamp df = Some t /\
                         forecast_index df = inr (date_range (t + 1 * Freq.minute) 30 Freq.minute)).
Proof.
  unfold forecast_index. destruct (last_timestamp df) as [t|] eqn:E.
  - right. split; [|now exists t]. intros ->. discriminate.
  - left. split; [now apply last_timestamp_None | reflexivity].
Qed.

Lemma zip_columns_cases (t : Z) (forecast : list Q) :
  (length forecast = 30%nat /\
   zip_columns (date_range t 30 Freq.minute) forecast
   = inr (combine (date_range t 30 Freq.minute) (List.map Some forecast))) \/
  (length forecast <> 30%nat /\
   zip_columns (date_range t 30 Freq.minute) forecast = inl ValueError).
Proof.
  unfold zip_columns. rewrite date_range_length.
  destruct (Nat.eqb_spec 30 (length forecast)) as [E|E]; [left | right]; split;
    congruence.
Qed.

(** Every way [save_to_csv] and [plot_forecast] can end. *)
Lemma save_and_plot_cases (df : frame) (forecast : list Q) (w : world) :
  (df = [] /\
   save_to_csv df forecast w
   = ({| logs := logs w; files := files w ++ [("btc_full_data.csv"%string, df)] |},
      inl IndexError) /\
   plot_forecast df forecast = inl IndexError) \/
  (df <> [] /\ length forecast <> 30%nat /\
   save_to_csv df forecast w
   = ({| logs := logs w; files := files w ++ [("btc_full_data.csv"%string, df)] |},
      inl ValueError) /\
   plot_forecast df forecast = inl ValueError) \/
  (df <> [] /\ length forecast = 30%nat /\
   exists forecast_df,
     save_to_csv df forecast w
     = ({| logs := logs w ++ [LogInfo MsgForecastSaved];
           files := files w ++ [("btc_full_data.csv"%string, df);
                                ("btc_price_forecast.csv"%string, forecast_df)] |},
        inr tt) /\
     plot_forecast df forecast = inr (skipn (length df - 120) df, forecast_df)).
Proof.
  destruct (forecast_index_cases df) as [[Hdf Hidx]|[Hne (t & _ & Hidx)]].
  - left. split; [assumption|]. split.
    + unfold save_to_csv, bind, lift, to_csv. cbn [fst snd]. now rewrite Hidx.
    + unfold plot_forecast. now rewrite Hidx.
  - right.
    destruct (zip_columns_cases (t + 1 * Freq.minute) forecast) as [[Hlen Hzip]|[Hlen Hzip]].
    + right. split; [assumption|]. split; [assumption|].
      exists (combine (date_range (t + 1 * Freq.minute) 30 Freq.minute)
                      (List.map Some forecast)). split.
      * unfold save_to_csv, bind, lift, to_csv, logger_info. cbn [fst snd].
        rewrite Hidx, Hzip. cbn [logs files]. now rewrite <- List.app_assoc.
      * unfold plot_forecast. now rewrite Hidx, Hzip.
    + left. split; [assumption|]. split; [assumption|]. split.
      * unfold save_to_csv, bind, lift, to_csv. cbn [fst snd]. now rewrite Hidx, Hzip.
      * unfold plot_forecast. now rewrite Hidx, Hzip.
Qed.

(** X15: [save_to_csv] returns if and only if the frame is not empty and
    the forecast holds 30 values.  An empty frame raises IndexError (at
    [df.index[-1]]) and a forecast of another length on a non-empty frame
    raises ValueError.  Whenever it does not return, the full-data file has
    been written all the same, the forecast file has not, and nothing is
    logged. *)
Theorem save_to_csv_returns_iff (df : frame) (forecast : list Q) (w : world) :
  (snd (save_to_csv df forecast w) = inr tt <-> df <> [] /\ length forecast = 30%nat) /\
  (df = [] -> snd (save_to_csv df forecast w) = inl IndexError) /\
  (df <> [] -> length forecast <> 30%nat ->
   snd (save_to_csv df forecast w) = inl ValueError) /\
  (snd (save_to_csv df forecast w) <> inr tt ->
   fst (save_to_csv df forecast w)
   = {| logs := logs w; files := files w ++ [("btc_full_data.csv"%string, df)] |}).
Proof.
  destruct (save_and_plot_cases df forecast w)
    as [(Hdf & -> & _)|[(Hne & Hlen & -> & _)|(Hne & Hlen & fdf & -> & _)]]; cbn [fst snd].
  - split; [|split; [|split]].
    + split; [discriminate | intros [H _]; congruence].
    + reflexivity.
    + congruence.
    + reflexivity.
  - split; [|split; [|split]].
    + split; [discriminate | intros [_ H]; congruence].
    + congruence.
    + reflexivity.
    + reflexivity.
  - split; [|split; [|split]].
    + split; [now split | reflexivity].
    + congruence.
    + congruence.
    + congruence.
Qed.

